(** * A chat-session proxy: session store and turn orchestration

    Shallow embedding of the backend of the ChatGPT UI:

    - [Database]: the operations of [backend/src/database.ts] on the single
      [messages] table (id INTEGER PRIMARY KEY AUTOINCREMENT, session_id,
      role, content, timestamp DEFAULT CURRENT_TIMESTAMP);
    - [Server]: the [POST /api/chat] handler of the Express server, written
      in a small state-and-exception monad over the store and a log of the
      calls the handler makes on the store, the chat model and the response.

    Strings are byte strings (the UTF-8 text SQLite stores); the columns use
    the BINARY collation, which is [String.compare].  Promises are run to
    completion one request at a time: an [await] is a sequencing point. *)

From Stdlib Require Import List String Ascii ZArith NArith Bool Lia.
From Stdlib Require Import Permutation Sorted.
Import ListNotations.
Open Scope string_scope.

(** ** Outcomes of a call that may throw *)

Inductive Thrown : Type :=
| DatabaseNotInitialized   (* new Error("Database not initialized") *)
| UpstreamError.           (* the chat model call rejected *)

Inductive Result (A : Type) : Type :=
| Ok (a : A)
| Throw (e : Thrown).
Arguments Ok {A} a.
Arguments Throw {A} e.

(** ** The session store: backend/src/database.ts *)

Module Database.

Inductive Role : Type := user | assistant.

Definition Role_eqb (a b : Role) : bool :=
  match a, b with
  | user, user | assistant, assistant => true
  | _, _ => false
  end.

(** [interface Message]: [id] and [timestamp] are optional. *)
Record Message : Type := mkMessage {
  id : option Z;
  session_id : string;
  role : Role;
  content : string;
  timestamp : option string
}.

(** A row of the [messages] table.  Every column is filled: the three
    inserted columns are NOT NULL, [id] is the rowid and [timestamp] takes
    its default, the text of CURRENT_TIMESTAMP. *)
Record Row : Type := mkRow {
  row_id : Z;
  row_session_id : string;
  row_role : Role;
  row_content : string;
  row_timestamp : string
}.

(** The table, with the AUTOINCREMENT counter kept in [sqlite_sequence]:
    the largest rowid ever handed out, which deletions do not lower. *)
Record Table : Type := mkTable {
  rows : list Row;
  sqlite_sequence : Z
}.

(** [let db: Database | null = null]: the module-level handle. *)
Definition Db : Type := option Table.

Definition empty_table : Table := mkTable [] 0.

(** [initDatabase]: opens the file and creates the table if it is not
    there; [disk] is what the file holds ([None]: a fresh file). *)
Definition initDatabase (disk : option Table) : Db :=
  match disk with
  | Some t => Some t
  | None => Some empty_table
  end.

Fixpoint max_rowid (l : list Row) : Z :=
  match l with
  | [] => 0
  | r :: l' => Z.max (row_id r) (max_rowid l')
  end.

(** The rowid AUTOINCREMENT picks: one more than the largest rowid that
    ever existed in the table. *)
Definition next_rowid (t : Table) : Z :=
  Z.max (sqlite_sequence t) (max_rowid (rows t)) + 1.

(** [INSERT INTO messages (session_id, role, content) VALUES (?, ?, ?)],
    executed when CURRENT_TIMESTAMP reads [now]; returns [lastID]. *)
Definition insert_row (now : string) (sid : string) (r : Role) (c : string)
    (t : Table) : Z * Table :=
  let i := next_rowid t in
  (i, mkTable (rows t ++ [mkRow i sid r c now]) i).

(** What [SELECT *] hands back for a row. *)
Definition message_of_row (r : Row) : Message :=
  mkMessage (Some (row_id r)) (row_session_id r) (row_role r)
            (row_content r) (Some (row_timestamp r)).

Definition in_session (sid : string) (r : Row) : bool :=
  String.eqb (row_session_id r) sid.

Definition timestamp_le (a b : Row) : Prop :=
  String.leb (row_timestamp a) (row_timestamp b) = true.

(** [ORDER BY timestamp ASC].  The statement names no second key, and the
    engine leaves the relative order of rows with equal keys undefined, so
    the sorter is a parameter: any function that returns the rows it was
    given, each once, in non-decreasing timestamp order. *)
Class SqlEngine : Type := mkEngine {
  order_by_timestamp : list Row -> list Row;
  order_by_timestamp_perm :
    forall l, Permutation (order_by_timestamp l) l;
  order_by_timestamp_sorted :
    forall l, Sorted timestamp_le (order_by_timestamp l)
}.

(** [saveMessage]: the INSERT ignores [id] and [timestamp] of the
    argument; the result is [{...message, id: result.lastID}]. *)
Definition saveMessage (now : string) (message : Message) (db : Db)
    : Result Message * Db :=
  match db with
  | None => (Throw DatabaseNotInitialized, db)
  | Some t =>
      let '(lastID, t') :=
        insert_row now (session_id message) (role message)
                   (content message) t in
      (Ok (mkMessage (Some lastID) (session_id message) (role message)
                     (content message) (timestamp message)),
       Some t')
  end.

(** [getConversationHistory]:
    [SELECT * FROM messages WHERE session_id = ? ORDER BY timestamp ASC]. *)
Definition select_history {E : SqlEngine} (sessionId : string) (t : Table)
    : list Row :=
  order_by_timestamp (filter (in_session sessionId) (rows t)).

Definition getConversationHistory {E : SqlEngine} (sessionId : string)
    (db : Db) : Result (list Message) * Db :=
  match db with
  | None => (Throw DatabaseNotInitialized, db)
  | Some t => (Ok (map message_of_row (select_history sessionId t)), db)
  end.

(** [ORDER BY session_id DESC] over distinct keys: insertion into a list
    kept in descending order. *)
Fixpoint insert_desc (s : string) (l : list string) : list string :=
  match l with
  | [] => [s]
  | x :: l' => if String.leb x s then s :: l else x :: insert_desc s l'
  end.

Fixpoint sort_desc (l : list string) : list string :=
  match l with
  | [] => []
  | s :: l' => insert_desc s (sort_desc l')
  end.

(** [getAllSessions]: [SELECT DISTINCT session_id FROM messages
    GROUP BY session_id ORDER BY session_id DESC]. *)
Definition select_sessions (t : Table) : list string :=
  sort_desc (nodup string_dec (map row_session_id (rows t))).

Definition getAllSessions (db : Db) : Result (list string) * Db :=
  match db with
  | None => (Throw DatabaseNotInitialized, db)
  | Some t => (Ok (select_sessions t), db)
  end.

(** [deleteSession]: [DELETE FROM messages WHERE session_id = ?]. *)
Definition delete_rows (sessionId : string) (t : Table) : Table :=
  mkTable (filter (fun r => negb (in_session sessionId r)) (rows t))
          (sqlite_sequence t).

Definition deleteSession (sessionId : string) (db : Db)
    : Result unit * Db :=
  match db with
  | None => (Throw DatabaseNotInitialized, db)
  | Some t => (Ok tt, Some (delete_rows sessionId t))
  end.

(** [createSession]: inserts a placeholder message to mark the session as
    existing. *)
Definition createSession (now : string) (sessionId : string) (db : Db)
    : Result unit * Db :=
  match db with
  | None => (Throw DatabaseNotInitialized, db)
  | Some t => (Ok tt, Some (snd (insert_row now sessionId assistant "" t)))
  end.

End Database.

(** ** JSON text: what [JSON.stringify] writes for the handler's payloads *)

Module Json.

Inductive value : Type :=
| JString (s : string)
| JBool (b : bool).

(** An object literal: its members in source order. *)
Definition object : Type := list (string * value).

Definition dquote : ascii := "034"%char.
Definition backslash : ascii := "\"%char.
Definition newline : ascii := "010"%char.

Definition hex_digit (n : N) : ascii :=
  if (n <? 10)%N then ascii_of_N (48 + n) else ascii_of_N (87 + n).

(** One character of QuoteJSONString: the two-character escapes, [\u00xx]
    for the other control characters, and the character itself otherwise. *)
Definition escape_char (c : ascii) : string :=
  let n := N_of_ascii c in
  if (n =? 8)%N then "\b"
  else if (n =? 9)%N then "\t"
  else if (n =? 10)%N then "\n"
  else if (n =? 12)%N then "\f"
  else if (n =? 13)%N then "\r"
  else if (n =? 34)%N then String backslash (String dquote "")
  else if (n =? 92)%N then "\\"
  else if (n <? 32)%N then
    "\u00" ++ String (hex_digit (n / 16)) (String (hex_digit (n mod 16)) "")
  else String c "".

Fixpoint escape (s : string) : string :=
  match s with
  | EmptyString => ""
  | String c s' => escape_char c ++ escape s'
  end.

Definition quote (s : string) : string :=
  String dquote (escape s ++ String dquote "").

Definition stringify_value (v : value) : string :=
  match v with
  | JString s => quote s
  | JBool true => "true"
  | JBool false => "false"
  end.

Fixpoint stringify_members (o : object) : string :=
  match o with
  | [] => ""
  | [(k, v)] => quote k ++ ":" ++ stringify_value v
  | (k, v) :: o' => quote k ++ ":" ++ stringify_value v ++ "," ++ stringify_members o'
  end.

Definition stringify (o : object) : string :=
  "{" ++ stringify_members o ++ "}".

End Json.

(** ** The chat endpoint of the Express server *)

Module Server.
Import Database Json.

(** LangChain's message classes, as far as the handler builds them. *)
Inductive BaseMessage : Type :=
| HumanMessage (content : string)
| AIMessage (content : string).

(** What a call on [chatModel] does.  [invoke] resolves with the whole
    answer or rejects; [stream] rejects, or yields finitely many chunks and
    then either ends or throws at the next pull. *)
Inductive InvokeOutcome : Type :=
| InvokeReturns (content : string)
| InvokeRejects.

Inductive StreamEnding : Type := StreamCompletes | StreamFails.

Inductive StreamOutcome : Type :=
| StreamRejects
| StreamYields (chunks : list string) (ending : StreamEnding).

Record ChatModel : Type := mkChatModel {
  invoke : list BaseMessage -> InvokeOutcome;
  stream : list BaseMessage -> StreamOutcome
}.

(** [req.body] of POST /api/chat; [None] is an absent field. *)
Record ChatBody : Type := mkChatBody {
  body_message : option string;
  body_sessionId : option string;
  body_streaming : option bool
}.

(** The calls the handler makes, in the order it makes them. *)
Inductive Event : Type :=
| Saved (m : Message)                   (* saveMessage resolved with m *)
| HistoryRead (sessionId : string)      (* getConversationHistory resolved *)
| ModelInvoke (messages : list BaseMessage)   (* chatModel.invoke called *)
| ModelInvokeDone (content : string)          (* ... and resolved *)
| ModelStream (messages : list BaseMessage)   (* chatModel.stream called *)
| StreamChunk (content : string)              (* a chunk was pulled *)
| StreamDone                                  (* the iterator is exhausted *)
| ModelFailed                                 (* the call or a pull threw *)
| ResStatus (code : Z)
| ResJson (o : object)
| ResSetHeader (name val : string)
| ResWrite (chunk : string)
| ResEnd
| ConsoleError (label : string).

Record World : Type := mkWorld {
  db : Db;
  log : list Event
}.

(** State over [World] with exceptions. *)
Definition M (A : Type) : Type := World -> Result A * World.

Definition ret {A} (a : A) : M A := fun w => (Ok a, w).

Definition bind {A B} (c : M A) (k : A -> M B) : M B :=
  fun w =>
    match c w with
    | (Ok a, w') => k a w'
    | (Throw e, w') => (Throw e, w')
    end.

Definition throw {A} (e : Thrown) : M A := fun w => (Throw e, w).

Definition try_catch {A} (c : M A) (handler : Thrown -> M A) : M A :=
  fun w =>
    match c w with
    | (Ok a, w') => (Ok a, w')
    | (Throw e, w') => handler e w'
    end.

Definition emit (e : Event) : M unit :=
  fun w => (Ok tt, mkWorld (db w) (log w ++ [e])).

(** A call into database.ts, run on the store of the world. *)
Definition on_db {A} (op : Db -> Result A * Db) : M A :=
  fun w => let '(r, d) := op (db w) in (r, mkWorld d (log w)).

Notation "x <- c ;; k" := (bind c (fun x => k))
  (at level 61, c at next level, right associativity).
Notation "c ;; k" := (bind c (fun _ => k))
  (at level 61, right associativity).

Definition save (now : string) (m : Message) : M Message :=
  saved <- on_db (saveMessage now m) ;;
  emit (Saved saved) ;;
  ret saved.

Definition read_history {E : SqlEngine} (sessionId : string)
    : M (list Message) :=
  history <- on_db (getConversationHistory sessionId) ;;
  emit (HistoryRead sessionId) ;;
  ret history.

(** [msg.role === "user" ? new HumanMessage(...) : new AIMessage(...)] *)
Definition to_langchain (msg : Message) : BaseMessage :=
  match role msg with
  | user => HumanMessage (content msg)
  | assistant => AIMessage (content msg)
  end.

(** [history.slice(0, -1)] *)
Definition slice_0_m1 (history : list Message) : list Message :=
  removelast history.

(** The message list handed to the model. *)
Definition langchainMessages (history : list Message) (message : string)
    : list BaseMessage :=
  map to_langchain (slice_0_m1 history) ++ [HumanMessage message].

(** [`data: ${JSON.stringify(payload)}\n\n`] *)
Definition sse (payload : object) : string :=
  "data: " ++ stringify payload ++ String newline (String newline "").

Definition content_event (content : string) : string :=
  sse [("content", JString content)].

Definition done_event : string := sse [("done", JBool true)].

(** [for await (const chunk of stream)]: accumulate and forward. *)
Fixpoint relay (chunks : list string) (ending : StreamEnding)
    (fullResponse : string) : M string :=
  match chunks with
  | [] =>
      match ending with
      | StreamCompletes => emit StreamDone ;; ret fullResponse
      | StreamFails => emit ModelFailed ;; throw UpstreamError
      end
  | content :: rest =>
      emit (StreamChunk content) ;;
      emit (ResWrite (content_event content)) ;;
      relay rest ending (fullResponse ++ content)
  end.

Definition call_stream (chatModel : ChatModel)
    (messages : list BaseMessage) : M string :=
  emit (ModelStream messages) ;;
  match stream chatModel messages with
  | StreamRejects => emit ModelFailed ;; throw UpstreamError
  | StreamYields chunks ending => relay chunks ending ""
  end.

Definition call_invoke (chatModel : ChatModel)
    (messages : list BaseMessage) : M string :=
  emit (ModelInvoke messages) ;;
  match invoke chatModel messages with
  | InvokeRejects => emit ModelFailed ;; throw UpstreamError
  | InvokeReturns content => emit (ModelInvokeDone content) ;; ret content
  end.

(** [!message] *)
Definition falsy (message : option string) : bool :=
  match message with
  | None => true
  | Some s => String.eqb s ""
  end.

Definition text (message : option string) : string :=
  match message with
  | None => ""
  | Some s => s
  end.

Definition DEFAULT_SESSION : string := "default".

(** [app.post("/api/chat", ...)].  [now_user] and [now_reply] are what
    CURRENT_TIMESTAMP reads at the two INSERTs. *)
Definition chat {E : SqlEngine} (chatModel : ChatModel)
    (now_user now_reply : string) (body : ChatBody) : M unit :=
  try_catch
    (let message := body_message body in
     let sessionId :=
       match body_sessionId body with
       | Some s => s
       | None => DEFAULT_SESSION
       end in
     if falsy message then
       emit (ResStatus 400) ;;
       emit (ResJson [("error", JString "Message is required")])
     else
       let message := text message in
       save now_user (mkMessage None sessionId user message None) ;;
       history <- read_history sessionId ;;
       let messages := langchainMessages history message in
       match body_streaming body with
       | Some true =>
           emit (ResSetHeader "Content-Type" "text/event-stream") ;;
           emit (ResSetHeader "Cache-Control" "no-cache") ;;
           emit (ResSetHeader "Connection" "keep-alive") ;;
           fullResponse <- call_stream chatModel messages ;;
           save now_reply
                (mkMessage None sessionId assistant fullResponse None) ;;
           emit (ResWrite done_event) ;;
           emit ResEnd
       | _ =>
           assistantMessage <- call_invoke chatModel messages ;;
           save now_reply
                (mkMessage None sessionId assistant assistantMessage None) ;;
           emit (ResJson [("message", JString assistantMessage)])
       end)
    (fun _ =>
       emit (ConsoleError "Error in chat endpoint:") ;;
       emit (ResStatus 500) ;;
       emit (ResJson [("error", JString "Internal server error")])).

(** One request against a store, from an empty log. *)
Definition handle {E : SqlEngine} (chatModel : ChatModel)
    (now_user now_reply : string) (body : ChatBody) (store : Db)
    : Db * list Event :=
  let w := snd (chat chatModel now_user now_reply body (mkWorld store [])) in
  (db w, log w).

End Server.

(** ** Reading the event stream back

    What a client does with one event of the stream: drop the [data: ]
    prefix, parse the JSON text, take the [content] field. *)

Module SseClient.
Import Json Server.

Fixpoint strip_prefix (p s : string) : option string :=
  match p with
  | EmptyString => Some s
  | String a p' =>
      match s with
      | String b s' => if Ascii.eqb a b then strip_prefix p' s' else None
      | EmptyString => None
      end
  end.

Definition hex_value (c : ascii) : option N :=
  let n := N_of_ascii c in
  if ((48 <=? n) && (n <=? 57))%N then Some (n - 48)%N
  else if ((97 <=? n) && (n <=? 102))%N then Some (n - 87)%N
  else if ((65 <=? n) && (n <=? 70))%N then Some (n - 55)%N
  else None.

(** The character a two-character escape stands for. *)
Definition unescape_simple (e : ascii) : option ascii :=
  if Ascii.eqb e "b" then Some "008"%char
  else if Ascii.eqb e "t" then Some "009"%char
  else if Ascii.eqb e "n" then Some "010"%char
  else if Ascii.eqb e "f" then Some "012"%char
  else if Ascii.eqb e "r" then Some "013"%char
  else if Ascii.eqb e dquote then Some dquote
  else if Ascii.eqb e backslash then Some backslash
  else if Ascii.eqb e "/" then Some "/"%char
  else None.

Definition cons_char (c : ascii) (r : option (string * string))
    : option (string * string) :=
  match r with
  | Some (str, tail) => Some (String c str, tail)
  | None => None
  end.

(** A JSON string literal after its opening quote: the string it denotes
    and the text after the closing quote. *)
Fixpoint parse_string_body (s : string) : option (string * string) :=
  match s with
  | EmptyString => None
  | String c rest =>
      if Ascii.eqb c dquote then Some ("", rest)
      else if Ascii.eqb c backslash then
        match rest with
        | EmptyString => None
        | String e rest' =>
            if Ascii.eqb e "u" then
              match rest' with
              | String h1 (String h2 (String h3 (String h4 rest''))) =>
                  match hex_value h1, hex_value h2,
                        hex_value h3, hex_value h4 with
                  | Some 0%N, Some 0%N, Some a, Some b =>
                      cons_char (ascii_of_N (16 * a + b))
                                (parse_string_body rest'')
                  | _, _, _, _ => None
                  end
              | _ => None
              end
            else
              match unescape_simple e with
              | Some ch => cons_char ch (parse_string_body rest')
              | None => None
              end
        end
      else if (N_of_ascii c <? 32)%N then None
      else cons_char c (parse_string_body rest)
  end.


End SseClient.

(** ** The other routes of the Express server *)

Module Routes.
Import Database Server.

(** The object a route hands to [res.json]. *)
Inductive Payload : Type :=
| HistoryPayload (history : list Message)     (* { history } *)
| SessionsPayload (sessions : list string)    (* { sessions } *)
| SuccessPayload                              (* { success: true } *)
| StatusPayload (status : string)             (* { status: "OK" } *)
| ErrorPayload (error : string).              (* { error: "..." } *)

(** What a route does with [res] and the console: the status it sets (200
    when it sets none), the body, and the label of [console.error] when the
    catch block ran. *)
Record Reply : Type := mkReply {
  reply_status : Z;
  reply_body : Payload;
  reply_logged : option string
}.

Definition ok (body : Payload) : Reply := mkReply 200 body None.

(** [console.error(label, error); res.status(500).json({ error: "Internal
    server error" })] *)
Definition internal_error (label : string) : Reply :=
  mkReply 500 (ErrorPayload "Internal server error") (Some label).

(** [app.get("/api/history/:sessionId", ...)] *)
Definition get_history {E : SqlEngine} (sessionId : string) (store : Db)
    : Reply * Db :=
  match getConversationHistory sessionId store with
  | (Ok history, store') => (ok (HistoryPayload history), store')
  | (Throw _, store') => (internal_error "Error fetching history:", store')
  end.

(** [app.get("/api/sessions", ...)] *)
Definition get_sessions (store : Db) : Reply * Db :=
  match getAllSessions store with
  | (Ok sessions, store') => (ok (SessionsPayload sessions), store')
  | (Throw _, store') => (internal_error "Error fetching sessions:", store')
  end.

(** [app.post("/api/sessions", ...)]; [sessionId] is the field of the body,
    [None] when absent, and [now] what CURRENT_TIMESTAMP reads at the
    INSERT. *)
Definition post_sessions (now : string) (sessionId : option string)
    (store : Db) : Reply * Db :=
  if falsy sessionId then
    (mkReply 400 (ErrorPayload "Session ID is required") None, store)
  else
    match createSession now (text sessionId) store with
    | (Ok _, store') => (ok SuccessPayload, store')
    | (Throw _, store') => (internal_error "Error creating session:", store')
    end.

(** [app.delete("/api/sessions/:sessionId", ...)] *)
Definition delete_session (sessionId : string) (store : Db) : Reply * Db :=
  match deleteSession sessionId store with
  | (Ok _, store') => (ok SuccessPayload, store')
  | (Throw _, store') => (internal_error "Error deleting session:", store')
  end.

(** [app.get("/api/health", ...)] *)
Definition get_health (store : Db) : Reply * Db :=
  (ok (StatusPayload "OK"), store).

(** A request to one of these routes. *)
Inductive Request : Type :=
| GetHistory (sessionId : string)
| GetSessions
| PostSessions (now : string) (sessionId : option string)
| DeleteSession (sessionId : string)
| GetHealth.

Definition serve {E : SqlEngine} (r : Request) (store : Db) : Reply * Db :=
  match r with
  | GetHistory sessionId => get_history sessionId store
  | GetSessions => get_sessions store
  | PostSessions now sessionId => post_sessions now sessionId store
  | DeleteSession sessionId => delete_session sessionId store
  | GetHealth => get_health store
  end.

End Routes.

(** ** The presentation client: frontend/src/App.tsx *)

Module Client.
Import Database Json Server Routes.
Local Open Scope list_scope.

(** What the page takes from the browser: [JSON.parse] ([None] when it
    throws), which reads back what [JSON.stringify] wrote for an object
    with one member, and [String.prototype.trim]. *)
Class Browser : Type := mkBrowser {
  JSON_parse : string -> option object;
  trim : string -> string;
  JSON_parse_stringify :
    forall k v, JSON_parse (stringify [(k, v)]) = Some [(k, v)]
}.

(** [interface Message] of the page.  [content] holds whatever value the
    page puts there, [None] standing for [undefined]. *)
Record UiMessage : Type := mkUi {
  ui_id : option Z;
  ui_role : Role;
  ui_content : option value
}.

(** The [messages] array: [None] is a hole. *)
Definition Messages : Type := list (option UiMessage).

(** The state of [App]. *)
Record Ui : Type := mkUiState {
  messages : Messages;
  input : string;
  isLoading : bool;
  currentSessionId : string;
  sessions : list string;
  streamingEnabled : bool
}.

(** [useState] initial values. *)
Definition initial : Ui := mkUiState [] "" false "default" [] true.

Inductive ClientError : Type :=
| NetworkError      (* fetch rejected *)
| SyntaxError       (* JSON.parse or response.json() threw *)
| NoReader.         (* new Error("No reader available") *)

(** [data.key] *)
Fixpoint member (key : string) (data : object) : option value :=
  match data with
  | [] => None
  | (k, v) :: data' => if String.eqb k key then Some v else member key data'
  end.

(** Whether [if (x)] takes the branch. *)
Definition truthy (x : option value) : bool :=
  match x with
  | Some (JString s) => negb (String.eqb s "")
  | Some (JBool b) => b
  | None => false
  end.

(** What [text += x] appends. *)
Definition to_text (x : option value) : string :=
  match x with
  | Some (JString s) => s
  | Some (JBool true) => "true"
  | Some (JBool false) => "false"
  | None => "undefined"
  end.

(** [s.split("\n")] *)
Fixpoint split_lines (s : string) : list string :=
  match s with
  | EmptyString => [""]
  | String c s' =>
      if Ascii.eqb c newline then "" :: split_lines s'
      else match split_lines s' with
           | line :: lines => String c line :: lines
           | [] => [String c ""]
           end
  end.

(** [s.slice(n)] *)
Fixpoint slice (n : nat) (s : string) : string :=
  match n, s with
  | O, _ => s
  | S n', String _ s' => slice n' s'
  | S _, EmptyString => ""
  end.

(** [updated[i] = m] on a copy of the array: past the end the array grows,
    leaving holes. *)
Fixpoint array_set (i : nat) (m : UiMessage) (a : Messages) : Messages :=
  match i, a with
  | O, [] => [Some m]
  | O, _ :: a' => Some m :: a'
  | S i', [] => None :: array_set i' m []
  | S i', x :: a' => x :: array_set i' m a'
  end.

(** [loadHistory]: the turns with a non-empty content; [fetched] is the
    reply of GET /api/history, [None] when the request failed. *)
Definition history_field (body : Payload) : list Message :=
  match body with
  | HistoryPayload history => history
  | _ => []
  end.

Definition shown (msg : Message) : UiMessage :=
  mkUi (id msg) (role msg) (Some (JString (content msg))).

Definition loadHistory (fetched : option Reply) (ui : Ui) : Ui :=
  let filteredHistory :=
    match fetched with
    | Some reply =>
        filter (fun msg => negb (String.eqb (content msg) ""))
               (history_field (reply_body reply))
    | None => []
    end in
  mkUiState (map (fun msg => Some (shown msg)) filteredHistory)
            (input ui) (isLoading ui) (currentSessionId ui) (sessions ui)
            (streamingEnabled ui).

Definition sessions_field (body : Payload) : list string :=
  match body with
  | SessionsPayload sessions => sessions
  | _ => []
  end.

Definition includes (l : list string) (s : string) : bool :=
  existsb (String.eqb s) l.

(** [fetchSessions] *)
Definition fetchSessions (fetched : option Reply) (ui : Ui) : Ui :=
  match fetched with
  | None => ui
  | Some reply =>
      let fetchedSessions := sessions_field (reply_body reply) in
      let current :=
        match fetchedSessions with
        | first :: _ =>
            if String.eqb (currentSessionId ui) ""
               || negb (includes fetchedSessions (currentSessionId ui))
            then first else currentSessionId ui
        | [] => ""
        end in
      mkUiState (messages ui) (input ui) (isLoading ui) current
                fetchedSessions (streamingEnabled ui)
  end.

(** [createNewSession]; [stamp] is the text of [Date.now()] and [posted]
    tells whether the POST went through. *)
Definition createNewSession (stamp : string) (posted : bool) (ui : Ui) : Ui :=
  let newSessionId := ("session-" ++ stamp)%string in
  let listed := newSessionId :: sessions ui in
  mkUiState [] (input ui) (isLoading ui) newSessionId
            (if posted then listed
             else filter (fun s => negb (String.eqb s newSessionId)) listed)
            (streamingEnabled ui).


(** The local state of [handleStreamingResponse]. *)
Record Streaming : Type := mkStreaming {
  assistantMessage : string;
  streamed : Messages
}.

(** [for (const line of lines)]: the state when the loop is left, and
    whether it was left because [JSON.parse] threw. *)
Fixpoint for_lines {B : Browser} (assistantMessageIndex : nat)
    (lines : list string) (st : Streaming) : Streaming * bool :=
  match lines with
  | [] => (st, false)
  | line :: lines' =>
      if String.prefix "data: " line then
        match JSON_parse (slice 6 line) with
        | None => (st, true)
        | Some data =>
            if truthy (member "done" data) then (st, false)
            else if truthy (member "content" data) then
              let text :=
                (assistantMessage st ++ to_text (member "content" data))%string
              in
              for_lines assistantMessageIndex lines'
                (mkStreaming text
                   (array_set assistantMessageIndex
                              (mkUi None assistant (Some (JString text)))
                              (streamed st)))
            else for_lines assistantMessageIndex lines' st
        end
      else for_lines assistantMessageIndex lines' st
  end.

(** [while (true)]: one round per chunk the reader hands over, until the
    body ends or a round throws. *)
Fixpoint read_all {B : Browser} (assistantMessageIndex : nat)
    (reads : list string) (st : Streaming) : Streaming * bool :=
  match reads with
  | [] => (st, false)
  | chunk :: reads' =>
      match for_lines assistantMessageIndex (split_lines chunk) st with
      | (st', false) => read_all assistantMessageIndex reads' st'
      | (st', true) => (st', true)
      end
  end.

(** What [fetch("/api/chat")] gives a streaming request: it rejects, or
    resolves with a response whose body, when there is one, is read chunk
    by chunk. *)
Inductive Streamed : Type :=
| StreamedRejects
| StreamedBody (reads : option (list string)).

(** [handleStreamingResponse]; [rendered] is the [messages] array the
    handler closed over and [shownNow] the array when it runs.  The result
    is the array it leaves and the error it throws, if any. *)
Definition handleStreamingResponse {B : Browser} (fetched : Streamed)
    (rendered shownNow : Messages) : Messages * option ClientError :=
  match fetched with
  | StreamedRejects => (shownNow, Some NetworkError)
  | StreamedBody None => (shownNow, Some NoReader)
  | StreamedBody (Some reads) =>
      let assistantMessageIndex := List.length rendered + 1 in
      match read_all assistantMessageIndex reads
              (mkStreaming ""
                 (shownNow
                  ++ [Some (mkUi None assistant (Some (JString "")))])) with
      | (st, false) => (streamed st, None)
      | (st, true) => (streamed st, Some SyntaxError)
      end
  end.

(** What [fetch("/api/chat")] gives a buffered request: it rejects, or
    resolves with a response whose body is this text. *)
Inductive Buffered : Type :=
| BufferedRejects
| BufferedBody (body : string).

(** [handleNonStreamingResponse] *)
Definition handleNonStreamingResponse {B : Browser} (fetched : Buffered)
    (shownNow : Messages) : Messages * option ClientError :=
  match fetched with
  | BufferedRejects => (shownNow, Some NetworkError)
  | BufferedBody body =>
      match JSON_parse body with
      | None => (shownNow, Some SyntaxError)
      | Some data =>
          (shownNow ++ [Some (mkUi None assistant (member "message" data))],
           None)
      end
  end.

Definition SORRY : string :=
  "Sorry, there was an error processing your request.".

(** The page after [handleSubmit], and whether it called [fetchSessions]
    on its way. *)
Record Submitted : Type := mkSubmitted {
  page : Ui;
  refreshed : bool
}.

(** [handleSubmit]; [streamedReply] and [bufferedReply] are what the
    request of the mode in use is answered. *)
Definition handleSubmit {B : Browser} (streamedReply : Streamed)
    (bufferedReply : Buffered) (ui : Ui) : Submitted :=
  if String.eqb (trim (input ui)) "" || isLoading ui then mkSubmitted ui false
  else
    let userMessage := mkUi None user (Some (JString (trim (input ui)))) in
    let sent := messages ui ++ [Some userMessage] in
    let '(shownAfter, thrown) :=
      if streamingEnabled ui
      then handleStreamingResponse streamedReply (messages ui) sent
      else handleNonStreamingResponse bufferedReply sent in
    match thrown with
    | None =>
        mkSubmitted
          (mkUiState shownAfter "" false (currentSessionId ui) (sessions ui)
                     (streamingEnabled ui))
          (negb (includes (sessions ui) (currentSessionId ui)))
    | Some _ =>
        mkSubmitted
          (mkUiState
             (shownAfter ++ [Some (mkUi None assistant (Some (JString SORRY)))])
             "" false (currentSessionId ui) (sessions ui)
             (streamingEnabled ui))
          false
    end.

(** The body of the request [handleSubmit] sends. *)
Definition request_body {B : Browser} (ui : Ui) : ChatBody :=
  mkChatBody (Some (trim (input ui))) (Some (currentSessionId ui))
             (Some (streamingEnabled ui)).

End Client.

(** ** A browser: a reader for the JSON the server writes, and [trim] over
    the ASCII white space *)

Module Browsers.
Import Json SseClient.

(** After the colon of a member: a string literal, [true] or [false], then
    the closing brace and nothing more. *)
Definition parse_member_value (s : string) : option value :=
  match s with
  | String c rest =>
      if Ascii.eqb c dquote then
        match parse_string_body rest with
        | Some (v, tail) =>
            if String.eqb tail "}" then Some (JString v) else None
        | None => None
        end
      else if String.eqb s "true}" then Some (JBool true)
      else if String.eqb s "false}" then Some (JBool false)
      else None
  | EmptyString => None
  end.

(** The text of an object with no member or one member. *)
Definition parse_object (s : string) : option object :=
  if String.eqb s "{}" then Some []
  else
    match strip_prefix (String "{" (String dquote "")) s with
    | None => None
    | Some literal =>
        match parse_string_body literal with
        | Some (k, tail) =>
            match strip_prefix ":" tail with
            | Some rest =>
                match parse_member_value rest with
                | Some v => Some [(k, v)]
                | None => None
                end
            | None => None
            end
        | None => None
        end
    end.

Definition is_space (c : ascii) : bool :=
  let n := N_of_ascii c in
  (((9 <=? n) && (n <=? 13)) || (n =? 32))%N.

Fixpoint trim_start (s : string) : string :=
  match s with
  | EmptyString => ""
  | String c s' => if is_space c then trim_start s' else s
  end.

Fixpoint trim_end (s : string) : string :=
  match s with
  | EmptyString => ""
  | String c s' =>
      match trim_end s' with
      | EmptyString => if is_space c then "" else String c ""
      | kept => String c kept
      end
  end.

Definition ascii_trim (s : string) : string := trim_start (trim_end s).

End Browsers.

(** ** Lines of text *)

Module Lines.
Import Json.

Fixpoint no_newline (s : string) : bool :=
  match s with
  | EmptyString => true
  | String c s' => negb (Ascii.eqb c newline) && no_newline s'
  end.

End Lines.

(** ** Shapes of a table *)

Module Tables.
Import Database.
Local Open Scope list_scope.

Definition id_lt (a b : Row) : Prop := (row_id a < row_id b)%Z.

(** Rows lie in rowid order, every rowid is positive and none exceeds the
    AUTOINCREMENT counter. *)
Definition valid_ids (t : Table) : Prop :=
  StronglySorted id_lt (rows t)
  /\ Forall (fun r => (0 < row_id r <= sqlite_sequence t)%Z) (rows t).

Definition stamped_before (a b : Row) : Prop :=
  String.compare (row_timestamp a) (row_timestamp b) = Lt.

(** The turns of the session were stamped strictly later one after the
    other, in the order they were inserted. *)
Definition chronological (sessionId : string) (t : Table) : Prop :=
  StronglySorted stamped_before (filter (in_session sessionId) (rows t)).

(** [now] is strictly later than every timestamp of the session. *)
Definition later_than_session (now : string) (sessionId : string)
    (t : Table) : Prop :=
  Forall (fun r => String.compare (row_timestamp r) now = Lt)
         (filter (in_session sessionId) (rows t)).

End Tables.

(** * The vocabulary of the properties *)

(** ** The BINARY collation order on strings *)

Module Collation.

Definition lt (a b : string) : Prop := String.compare a b = Lt.

(** Strictly descending neighbours, as [ORDER BY ... DESC] over distinct
    keys lists them. *)
Definition gt (a b : string) : Prop := lt b a.

End Collation.

(** ** Two sorters for [ORDER BY timestamp ASC]

    Both sort by insertion; they differ only in how rows with the same
    timestamp come out: in scan order, or in the reverse of it. *)

Module Engines.
Import Database.

Fixpoint insert_by_timestamp (r : Row) (l : list Row) : list Row :=
  match l with
  | [] => [r]
  | x :: l' =>
      if String.leb (row_timestamp r) (row_timestamp x)
      then r :: l
      else x :: insert_by_timestamp r l'
  end.

Fixpoint stable_sort (l : list Row) : list Row :=
  match l with
  | [] => []
  | r :: l' => insert_by_timestamp r (stable_sort l')
  end.

Definition reversing_sort (l : list Row) : list Row :=
  stable_sort (rev l).

End Engines.

(** ** The parts of one request

    What the log and the final store of a run are made of. *)

Module Requests.
Import Database Json Server.
Local Open Scope list_scope.

(** The chunks of a stream put end to end, first chunk first. *)
Definition concat_all (chunks : list string) : string :=
  fold_right String.append "" chunks.

(** What the loop does for the chunks of a stream: each is pulled and
    written out before the next is pulled. *)
Definition relay_events (chunks : list string) : list Event :=
  flat_map (fun c => [StreamChunk c; ResWrite (content_event c)]) chunks.

Definition session_of (body : ChatBody) : string :=
  match body_sessionId body with
  | Some s => s
  | None => DEFAULT_SESSION
  end.

Definition user_turn (body : ChatBody) (t : Table) : Message :=
  mkMessage (Some (next_rowid t)) (session_of body) user
            (text (body_message body)) None.

Definition user_row (now_user : string) (body : ChatBody) (t : Table) : Row :=
  mkRow (next_rowid t) (session_of body) user (text (body_message body))
        now_user.

Definition after_user (now_user : string) (body : ChatBody) (t : Table)
    : Table :=
  mkTable (rows t ++ [user_row now_user body t]) (next_rowid t).

Definition history_read (E : SqlEngine) (now_user : string) (body : ChatBody)
    (t : Table) : list Message :=
  map message_of_row
      (select_history (session_of body) (after_user now_user body t)).

Definition transcript (E : SqlEngine) (now_user : string) (body : ChatBody)
    (t : Table) : list BaseMessage :=
  langchainMessages (history_read E now_user body t)
                    (text (body_message body)).

Definition assistant_turn (now_user : string) (body : ChatBody) (t : Table)
    (answer : string) : Message :=
  mkMessage (Some (next_rowid (after_user now_user body t))) (session_of body)
            assistant answer None.

Definition assistant_row (now_user now_reply : string) (body : ChatBody)
    (t : Table) (answer : string) : Row :=
  mkRow (next_rowid (after_user now_user body t)) (session_of body) assistant
        answer now_reply.

Definition after_reply (now_user now_reply : string) (body : ChatBody)
    (t : Table) (answer : string) : Table :=
  mkTable (rows t ++ [user_row now_user body t;
                      assistant_row now_user now_reply body t answer])
          (next_rowid (after_user now_user body t)).

Definition error_reply : list Event :=
  [ConsoleError "Error in chat endpoint:"; ResStatus 500;
   ResJson [("error", JString "Internal server error")]].

Definition sse_headers : list Event :=
  [ResSetHeader "Content-Type" "text/event-stream";
   ResSetHeader "Cache-Control" "no-cache";
   ResSetHeader "Connection" "keep-alive"].

(** The call the handler makes on the model. *)
Definition model_call (body : ChatBody) (messages : list BaseMessage)
    : Event :=
  match body_streaming body with
  | Some true => ModelStream messages
  | _ => ModelInvoke messages
  end.

(** The model answers the request with [answer]: the text [invoke]
    returns, or the concatenation of the chunks of a stream that ends. *)
Definition answered (chatModel : ChatModel) (body : ChatBody)
    (messages : list BaseMessage) (answer : string) : Prop :=
  match body_streaming body with
  | Some true =>
      exists chunks,
        stream chatModel messages = StreamYields chunks StreamCompletes
        /\ answer = concat_all chunks
  | _ => invoke chatModel messages = InvokeReturns answer
  end.

End Requests.

(** ** Reading a log *)

Module LogOrder.
Import Database Json Server.
Local Open Scope list_scope.

Definition user_saved (e : Event) : bool :=
  match e with
  | Saved m => Role_eqb (role m) user
  | _ => false
  end.

Definition assistant_saved (e : Event) : bool :=
  match e with
  | Saved m => Role_eqb (role m) assistant
  | _ => false
  end.

(** The completion call is issued ... *)
Definition call_issued (e : Event) : bool :=
  match e with
  | ModelInvoke _ | ModelStream _ => true
  | _ => false
  end.

(** ... and has completed (buffered) or drained (streaming). *)
Definition call_finished (e : Event) : bool :=
  match e with
  | ModelInvokeDone _ | StreamDone => true
  | _ => false
  end.

(** Anything the completion call does, from its start to its last chunk,
    its end or its failure. *)
Definition call_event (e : Event) : bool :=
  match e with
  | ModelInvoke _ | ModelInvokeDone _ | ModelStream _
  | StreamChunk _ | StreamDone | ModelFailed => true
  | _ => false
  end.

(** Every [P] event of the log occurs at a smaller position than every [Q]
    event. *)
Definition strictly_before (P Q : Event -> bool) (l : list Event) : Prop :=
  forall i j a b,
    nth_error l i = Some a -> nth_error l j = Some b ->
    P a = true -> Q b = true -> i < j.

(** The chunks written to the response, in order. *)
Definition writes (l : list Event) : list string :=
  flat_map (fun e => match e with ResWrite s => [s] | _ => [] end) l.

End LogOrder.

(** ** Readings of the specification *)

Module Readings.
Import Database Json Server Requests LogOrder.
Local Open Scope list_scope.

(** The reading under which [saveMessage] hands back the whole stored
    row: the caller's three fields with the id and the timestamp the store
    assigned. *)
Definition returns_complete_turn (now : string) (message : Message)
    (t : Table) : Prop :=
  exists saved t' row,
    saveMessage now message (Some t) = (Ok saved, Some t')
    /\ rows t' = rows t ++ [row]
    /\ session_id saved = session_id message
    /\ role saved = role message
    /\ content saved = content message
    /\ id saved = Some (row_id row)
    /\ timestamp saved = Some (row_timestamp row).

Definition timestamp_lt (a b : Row) : Prop :=
  Collation.lt (row_timestamp a) (row_timestamp b).



(** The order a run keeps between its saves and its completion call, and
    what it leaves in the store. *)
Definition in_order (now_user : string) (body : ChatBody) (store store' : Db)
    (log : list Event) : Prop :=
  strictly_before user_saved call_event log
  /\ (forall j b, nth_error log j = Some b -> call_issued b = true ->
        exists t t',
          store = Some t /\ store' = Some t'
          /\ nth_error log 0 = Some (Saved (user_turn body t)) /\ 0 < j
          /\ In (user_row now_user body t) (rows t'))
  /\ strictly_before call_event assistant_saved log
  /\ (forall j b, nth_error log j = Some b -> assistant_saved b = true ->
        ~ In ModelFailed log
        /\ exists i a,
             i < j /\ nth_error log i = Some a /\ call_finished a = true)
  /\ (forall t, store = Some t -> falsy (body_message body) = false ->
        exists t' reply,
          store' = Some t'
          /\ rows t' = rows t ++ user_row now_user body t :: reply
          /\ List.length reply <= 1
          /\ (In ModelFailed log -> reply = [])).

Definition is_turn (i : Z) (m : Message) : bool :=
  match id m with
  | Some k => Z.eqb k i
  | None => false
  end.

(** The transcript the comment on [slice(0, -1)] describes: the history
    without the turn this request has just saved, then the incoming text. *)
Definition intended_transcript (E : SqlEngine) (now_user : string)
    (body : ChatBody) (t : Table) : list BaseMessage :=
  map to_langchain
      (filter (fun m => negb (is_turn (next_rowid t) m))
              (history_read E now_user body t))
  ++ [HumanMessage (text (body_message body))].

End Readings.

(** ** Stores and models to run the handler on *)

Module Scenarios.
Import Database Server.

(** Two turns of session "s1" written within the same second. *)
Definition tied_table : Table :=
  mkTable [mkRow 1 "s1" user "hi" "2024-01-01 12:00:00";
           mkRow 2 "s1" assistant "hello" "2024-01-01 12:00:00"] 2.

(** A turn stamped :05 written after a turn stamped :10. *)
Definition skewed_table : Table :=
  mkTable [mkRow 1 "s1" assistant "a" "2024-01-01 12:00:10";
           mkRow 2 "s1" user "hi" "2024-01-01 12:00:05"] 2.

(** Session "s1" holds one turn, stamped 12:00:10. *)
Definition earlier_table : Table :=
  mkTable [mkRow 1 "s1" assistant "a" "2024-01-01 12:00:10"] 1.

(** Session "s1" right after [createSession]: the placeholder alone. *)
Definition placeholder_table : Table :=
  mkTable [mkRow 1 "s1" assistant "" "2024-01-01 12:00:00"] 1.

(** A model that answers "hello", in two chunks when streaming. *)
Definition scripted_model : ChatModel :=
  mkChatModel (fun _ => InvokeReturns "hello")
              (fun _ => StreamYields ["hel"; "lo"] StreamCompletes).

(** A model whose call fails: at once when buffered, after one chunk when
    streaming. *)
Definition failing_model : ChatModel :=
  mkChatModel (fun _ => InvokeRejects)
              (fun _ => StreamYields ["hel"] StreamFails).

(** Session "s1" with three turns stamped :00, :01, :05. *)
Definition steady_table : Table :=
  mkTable [mkRow 1 "s1" user "hi" "2024-01-01 12:00:00";
           mkRow 2 "s2" user "yo" "2024-01-01 12:00:00";
           mkRow 3 "s1" assistant "hello" "2024-01-01 12:00:01";
           mkRow 4 "s1" user "bye" "2024-01-01 12:00:05"] 4.

End Scenarios.

(** ** What the other routes answer *)

Module Outcomes.
Import Database Server Routes.



End Outcomes.

(** ** What the page holds and renders *)

Module Pages.
Import Database Json Server Client.
Local Open Scope list_scope.

(** The objects handed to [res.json], in order. *)
Definition replies (l : list Event) : list object :=
  flat_map (fun e => match e with ResJson o => [o] | _ => [] end) l.


(** The message the page shows for the text it sends. *)
Definition sent_message {B : Browser} (ui : Ui) : option UiMessage :=
  Some (mkUi None user (Some (JString (trim (input ui))))).

(** An assistant message of the page. *)
Definition reply_message (content : option value) : option UiMessage :=
  Some (mkUi None assistant content).

(** What one content event does to the local state of the reader. *)
Definition absorb (idx : nat) (st : Streaming) (c : string) : Streaming :=
  if String.eqb c "" then st
  else
    mkStreaming
      (assistantMessage st ++ c)
      (array_set idx
         (mkUi None assistant (Some (JString (assistantMessage st ++ c))))
         (streamed st)).

(** The last entry of the array is the assistant message under
    construction. *)
Definition tracked (pre : Messages) (st : Streaming) : Prop :=
  streamed st
  = pre ++ [Some (mkUi None assistant (Some (JString (assistantMessage st))))].

(** The selection of the sidebar is in order: with no session listed
    none is selected; otherwise the selected one is the first of the list
    or a listed one with a non-empty id. *)
Definition settled (ui : Ui) : Prop :=
  match sessions ui with
  | [] => currentSessionId ui = ""
  | first :: _ =>
      currentSessionId ui = first
      \/ (currentSessionId ui <> ""
          /\ In (currentSessionId ui) (sessions ui))
  end.

End Pages.

(** * Properties *)

Module StringOrder.
Import Collation.

Lemma ascii_compare_lt_trans a b c :
  Ascii.compare a b = Lt -> Ascii.compare b c = Lt ->
  Ascii.compare a c = Lt.
Proof. unfold Ascii.compare. rewrite !N.compare_lt_iff. lia. Qed.

Lemma compare_refl : forall s, String.compare s s = Eq.
Proof.
  induction s as [|a s IH]; simpl; [reflexivity|].
  unfold Ascii.compare. now rewrite N.compare_refl.
Qed.

Lemma lt_irrefl s : ~ lt s s.
Proof. unfold lt. rewrite compare_refl. discriminate. Qed.

Lemma lt_trans : forall s1 s2 s3, lt s1 s2 -> lt s2 s3 -> lt s1 s3.
Proof.
  unfold lt.
  induction s1 as [|a s1 IH]; intros [|b s2] [|c s3]; simpl; try congruence.
  destruct (Ascii.compare a b) eqn:Hab; try discriminate.
  - apply Ascii.compare_eq_iff in Hab. subst b.
    destruct (Ascii.compare a c); try congruence. apply IH.
  - destruct (Ascii.compare b c) eqn:Hbc; try discriminate.
    + apply Ascii.compare_eq_iff in Hbc. subst c. now rewrite Hab.
    + now rewrite (ascii_compare_lt_trans _ _ _ Hab Hbc).
Qed.

Lemma leb_false_lt x s : String.leb x s = false -> lt s x.
Proof.
  unfold String.leb, lt. rewrite (String.compare_antisym s x).
  destruct (String.compare x s); simpl; congruence.
Qed.

Lemma leb_iff x s : String.leb x s = true <-> lt x s \/ x = s.
Proof.
  unfold String.leb, lt. split.
  - destruct (String.compare x s) eqn:H; try discriminate; auto.
    right. now apply String.compare_eq_iff.
  - intros [H | ->]; [now rewrite H | now rewrite compare_refl].
Qed.

Lemma leb_refl s : String.leb s s = true.
Proof. apply leb_iff. now right. Qed.

Lemma leb_trans a b c :
  String.leb a b = true -> String.leb b c = true -> String.leb a c = true.
Proof.
  rewrite !leb_iff. intros [H1 | ->] [H2 | ->]; auto.
  left. eapply lt_trans; eauto.
Qed.

Lemma lt_leb_false a b : lt a b -> String.leb b a = false.
Proof.
  intros H. destruct (String.leb b a) eqn:E; [|reflexivity].
  apply leb_iff in E. destruct E as [E | ->].
  - exfalso. apply (lt_irrefl a). eapply lt_trans; eauto.
  - exfalso. now apply (lt_irrefl a).
Qed.

End StringOrder.

(** ** The two engines meet the contract of [ORDER BY timestamp ASC] *)

Module EngineFacts.
Import Database Engines.

Lemma insert_by_timestamp_perm r : forall l,
  Permutation (insert_by_timestamp r l) (r :: l).
Proof.
  induction l as [|x l IH]; simpl; [reflexivity|].
  destruct (String.leb _ _); [reflexivity|].
  rewrite IH. apply perm_swap.
Qed.

Lemma stable_sort_perm : forall l, Permutation (stable_sort l) l.
Proof.
  induction l as [|r l IH]; simpl; [reflexivity|].
  rewrite insert_by_timestamp_perm. now constructor.
Qed.

Lemma insert_by_timestamp_sorted r : forall l,
  Sorted timestamp_le l -> Sorted timestamp_le (insert_by_timestamp r l).
Proof.
  induction l as [|x l IH]; simpl; intros S.
  - repeat constructor.
  - destruct (String.leb (row_timestamp r) (row_timestamp x)) eqn:E.
    + constructor; [assumption|]. constructor. exact E.
    + inversion S as [|? ? S' H]; subst.
      constructor; [now apply IH|].
      assert (Hxr : timestamp_le x r).
      { destruct (String.leb_total (row_timestamp r) (row_timestamp x));
          [congruence | assumption]. }
      destruct l as [|y l]; simpl.
      * now constructor.
      * destruct (String.leb (row_timestamp r) (row_timestamp y));
          constructor; [assumption|]. now inversion H.
Qed.

Lemma stable_sort_sorted : forall l, Sorted timestamp_le (stable_sort l).
Proof.
  induction l as [|r l IH]; simpl; [constructor|].
  now apply insert_by_timestamp_sorted.
Qed.

Lemma reversing_sort_perm l : Permutation (reversing_sort l) l.
Proof.
  unfold reversing_sort. rewrite stable_sort_perm.
  symmetry. apply Permutation_rev.
Qed.

Lemma reversing_sort_sorted l : Sorted timestamp_le (reversing_sort l).
Proof. apply stable_sort_sorted. Qed.

End EngineFacts.

(** Ties come out in scan order: how a stable sorter behaves. *)
Definition stable_engine : Database.SqlEngine :=
  Database.mkEngine Engines.stable_sort
    EngineFacts.stable_sort_perm EngineFacts.stable_sort_sorted.

(** Ties come out in reverse scan order: just as much an answer to the
    query. *)
Definition reversing_engine : Database.SqlEngine :=
  Database.mkEngine Engines.reversing_sort
    EngineFacts.reversing_sort_perm EngineFacts.reversing_sort_sorted.

(** ** Lists in strict order *)

Section StrictOrder.
Context {A : Type} (R : A -> A -> Prop).
Hypothesis R_irrefl : forall x, ~ R x x.
Hypothesis R_trans : forall x y z, R x y -> R y z -> R x z.

(** A strictly ordered list is determined by its elements. *)
Lemma strictly_sorted_unique : forall l1 l2,
  StronglySorted R l1 -> StronglySorted R l2 ->
  (forall x, In x l1 <-> In x l2) -> l1 = l2.
Proof.
  induction l1 as [|a l1 IH]; intros [|b l2] S1 S2 Hin.
  - reflexivity.
  - exfalso. apply (proj2 (Hin b)). now left.
  - exfalso. apply (proj1 (Hin a)). now left.
  - inversion S1 as [|? ? S1' F1]; subst.
    inversion S2 as [|? ? S2' F2]; subst.
    rewrite Forall_forall in F1, F2.
    assert (Hab : a = b).
    { destruct (proj1 (Hin a) (or_introl eq_refl)) as [E | Ha]; [auto|].
      destruct (proj2 (Hin b) (or_introl eq_refl)) as [E | Hb]; [auto|].
      exfalso. apply (R_irrefl a).
      apply R_trans with b; [apply F1, Hb | apply F2, Ha]. }
    subst b. f_equal. apply IH; auto.
    intros x; split; intros Hx.
    + destruct (proj1 (Hin x) (or_intror Hx)) as [E | ?]; [|assumption].
      subst x. exfalso. apply (R_irrefl a). now apply F1.
    + destruct (proj2 (Hin x) (or_intror Hx)) as [E | ?]; [|assumption].
      subst x. exfalso. apply (R_irrefl a). now apply F2.
Qed.

End StrictOrder.

(** ** The session store *)

Module DatabaseFacts.
Import Database.

Lemma max_rowid_bound : forall l r, In r l -> (row_id r <= max_rowid l)%Z.
Proof.
  induction l as [|x l IH]; simpl; intros r Hr; [contradiction|].
  destruct Hr as [-> | Hr]; [lia|]. specialize (IH r Hr). lia.
Qed.

Lemma next_rowid_fresh t r : In r (rows t) -> (row_id r < next_rowid t)%Z.
Proof.
  intros Hr. apply max_rowid_bound in Hr. unfold next_rowid. lia.
Qed.

Lemma next_rowid_grows now sid r c t :
  (next_rowid t < next_rowid (snd (insert_row now sid r c t)))%Z.
Proof. unfold next_rowid at 2. simpl. lia. Qed.

Lemma in_session_iff sid r : in_session sid r = true <-> row_session_id r = sid.
Proof. unfold in_session. apply String.eqb_eq. Qed.

Lemma in_session_refl now i sid r c :
  in_session sid (mkRow i sid r c now) = true.
Proof. apply in_session_iff. reflexivity. Qed.

#[export] Instance timestamp_le_trans : RelationClasses.Transitive timestamp_le.
Proof. intros a b c. apply StringOrder.leb_trans. Qed.

Lemma engine_nil (E : SqlEngine) : order_by_timestamp [] = [].
Proof. apply Permutation_nil. symmetry. apply order_by_timestamp_perm. Qed.

Lemma select_history_perm (E : SqlEngine) sid t :
  Permutation (select_history sid t) (filter (in_session sid) (rows t)).
Proof. apply order_by_timestamp_perm. Qed.

Lemma select_history_sorted (E : SqlEngine) sid t :
  StronglySorted timestamp_le (select_history sid t).
Proof.
  apply Sorted_StronglySorted; [exact timestamp_le_trans|].
  apply order_by_timestamp_sorted.
Qed.

(** *** [ORDER BY session_id DESC] *)

Lemma insert_desc_perm s : forall l, Permutation (insert_desc s l) (s :: l).
Proof.
  induction l as [|x l IH]; simpl; [reflexivity|].
  destruct (String.leb x s); [reflexivity|].
  rewrite IH. apply perm_swap.
Qed.

Lemma sort_desc_perm : forall l, Permutation (sort_desc l) l.
Proof.
  induction l as [|s l IH]; simpl; [reflexivity|].
  rewrite insert_desc_perm. now constructor.
Qed.

Lemma insert_desc_sorted s : forall l,
  ~ In s l -> StronglySorted Collation.gt l ->
  StronglySorted Collation.gt (insert_desc s l).
Proof.
  induction l as [|x l IH]; simpl; intros Hs S.
  - repeat constructor.
  - inversion S as [|? ? S' F]; subst.
    destruct (String.leb x s) eqn:E.
    + assert (Hxs : Collation.lt x s).
      { apply StringOrder.leb_iff in E. destruct E as [E | E]; [exact E|].
        exfalso. apply Hs. now left. }
      constructor; [assumption|]. constructor; [exact Hxs|].
      rewrite Forall_forall in *. intros y Hy.
      apply StringOrder.lt_trans with x; [now apply F | exact Hxs].
    + constructor; [apply IH; tauto|].
      rewrite Forall_forall in *. intros y Hy.
      apply (Permutation_in _ (insert_desc_perm s l)) in Hy.
      destruct Hy as [<- | Hy]; [now apply StringOrder.leb_false_lt | now apply F].
Qed.

Lemma sort_desc_sorted : forall l,
  NoDup l -> StronglySorted Collation.gt (sort_desc l).
Proof.
  induction l as [|s l IH]; simpl; intros N; [constructor|].
  inversion N; subst. apply insert_desc_sorted; [|auto].
  intros Hin. apply (Permutation_in _ (sort_desc_perm l)) in Hin. contradiction.
Qed.

Lemma select_sessions_In t s :
  In s (select_sessions t) <-> exists r, In r (rows t) /\ row_session_id r = s.
Proof.
  unfold select_sessions. split.
  - intros H. apply (Permutation_in _ (sort_desc_perm _)) in H.
    apply nodup_In, in_map_iff in H. destruct H as (r & <- & Hr). eauto.
  - intros (r & Hr & <-).
    apply (Permutation_in _ (Permutation_sym (sort_desc_perm _))).
    apply nodup_In, in_map. exact Hr.
Qed.

Lemma select_sessions_NoDup t : NoDup (select_sessions t).
Proof.
  unfold select_sessions.
  apply (Permutation_NoDup (Permutation_sym (sort_desc_perm _))).
  apply NoDup_nodup.
Qed.

Lemma select_sessions_sorted t :
  StronglySorted Collation.gt (select_sessions t).
Proof. apply sort_desc_sorted, NoDup_nodup. Qed.

(** Any answer to the query is this list: distinct keys in descending
    order leave the sorter no choice. *)
Lemma select_sessions_unique t l :
  StronglySorted Collation.gt l ->
  (forall s, In s l <-> exists r, In r (rows t) /\ row_session_id r = s) ->
  l = select_sessions t.
Proof.
  intros S Hin.
  apply (strictly_sorted_unique Collation.gt); auto.
  - intros x. apply StringOrder.lt_irrefl.
  - intros x y z Hxy Hyz. unfold Collation.gt in *.
    eapply StringOrder.lt_trans; eauto.
  - apply select_sessions_sorted.
  - intros s. rewrite Hin. symmetry. apply select_sessions_In.
Qed.

Lemma filter_negb_in_session sid : forall l,
  filter (in_session sid) (filter (fun r => negb (in_session sid r)) l) = [].
Proof.
  induction l as [|x l IH]; simpl; [reflexivity|].
  destruct (in_session sid x) eqn:E; simpl; [exact IH|].
  now rewrite E.
Qed.

Lemma filter_negb_idem sid : forall l,
  filter (fun r => negb (in_session sid r))
         (filter (fun r => negb (in_session sid r)) l)
  = filter (fun r => negb (in_session sid r)) l.
Proof.
  induction l as [|x l IH]; simpl; [reflexivity|].
  destruct (in_session sid x) eqn:E; simpl; [exact IH|].
  rewrite E. simpl. now f_equal.
Qed.

Lemma filter_negb_unknown sid : forall l,
  (forall r, In r l -> row_session_id r <> sid) ->
  filter (fun r => negb (in_session sid r)) l = l.
Proof.
  induction l as [|x l IH]; simpl; intros H; [reflexivity|].
  destruct (in_session sid x) eqn:E.
  - apply in_session_iff in E. exfalso. apply (H x); auto.
  - simpl. f_equal. apply IH. intros r Hr. apply H. now right.
Qed.

End DatabaseFacts.

Module StoreProperties.
Import Database DatabaseFacts Readings Scenarios.
Local Open Scope list_scope.

(** *** saveMessage *)

(** C5, counterexample: saving [{session_id: "s1", role: "user",
    content: "hi"}] into the empty table stores a row stamped
    "2024-01-01 12:00:00", but the message handed back has no timestamp:
    only [id] is added to the caller's object. *)
Lemma saveMessage_omits_timestamp :
  ~ returns_complete_turn "2024-01-01 12:00:00"
      (mkMessage None "s1" user "hi" None) empty_table.
Proof.
  intros (saved & t' & row & Hsave & Hrows & _ & _ & _ & _ & Hts).
  simpl in Hsave. inversion Hsave; subst; clear Hsave.
  simpl in Hts. discriminate.
Qed.

(** C5, as amended: on an open store [saveMessage] appends one row made of
    the caller's session_id, role and content, a fresh id (larger than
    every id in the table and than the AUTOINCREMENT counter) and the
    current timestamp; it returns the caller's message with [id] set to
    that fresh id, the [timestamp] field being left as the caller passed
    it. *)
Theorem saveMessage_returns_id : forall now message t,
  let row := mkRow (next_rowid t) (session_id message) (role message)
                   (content message) now in
  saveMessage now message (Some t)
  = (Ok (mkMessage (Some (row_id row)) (session_id message) (role message)
                   (content message) (timestamp message)),
     Some (mkTable (rows t ++ [row]) (row_id row)))
  /\ Forall (fun r => (row_id r < row_id row)%Z) (rows t)
  /\ (sqlite_sequence t < row_id row)%Z.
Proof.
  intros now message t row. split; [reflexivity|]. split.
  - apply Forall_forall. intros r Hr. now apply next_rowid_fresh.
  - subst row. unfold next_rowid. simpl. lia.
Qed.

(** *** getConversationHistory *)




Lemma sorted_distinct_strict : forall l,
  StronglySorted timestamp_le l -> NoDup (map row_timestamp l) ->
  StronglySorted timestamp_lt l.
Proof.
  induction l as [|a l IH]; intros S N; [constructor|].
  inversion S as [|? ? S' F]; subst. simpl in N. inversion N; subst.
  constructor; [auto|].
  rewrite Forall_forall in *. intros b Hb.
  destruct (proj1 (StringOrder.leb_iff _ _) (F b Hb)) as [Hlt | Heq];
    [exact Hlt|].
  exfalso. match goal with H : ~ In _ _ |- _ => apply H end.
  rewrite Heq. now apply in_map.
Qed.

(** With pairwise distinct timestamps in the session every engine gives
    the same answer. *)
Lemma history_engine_independent (E1 E2 : SqlEngine) sessionId t :
  NoDup (map row_timestamp (filter (in_session sessionId) (rows t))) ->
  @select_history E1 sessionId t = @select_history E2 sessionId t.
Proof.
  intros N.
  assert (strict : forall E : SqlEngine,
             StronglySorted timestamp_lt (@select_history E sessionId t)).
  { intros E. apply sorted_distinct_strict; [apply select_history_sorted|].
    eapply Permutation_NoDup; [|exact N].
    apply Permutation_map, Permutation_sym, select_history_perm. }
  apply (strictly_sorted_unique timestamp_lt); auto.
  - intros x. apply StringOrder.lt_irrefl.
  - intros x y z. apply StringOrder.lt_trans.
  - intros x. split; intros H.
    + apply (Permutation_in _ (select_history_perm E1 _ _)) in H.
      now apply (Permutation_in _ (Permutation_sym (select_history_perm E2 _ _))).
    + apply (Permutation_in _ (select_history_perm E2 _ _)) in H.
      now apply (Permutation_in _ (Permutation_sym (select_history_perm E1 _ _))).
Qed.

(** The stores of the examples are what the operations leave behind when
    the clock reads as stamped. *)
Lemma tied_table_reachable :
  snd (saveMessage "2024-01-01 12:00:00"
         (mkMessage None "s1" assistant "hello" None)
         (snd (saveMessage "2024-01-01 12:00:00"
                 (mkMessage None "s1" user "hi" None) (Some empty_table))))
  = Some tied_table.
Proof. reflexivity. Qed.

Lemma skewed_table_reachable :
  snd (saveMessage "2024-01-01 12:00:05" (mkMessage None "s1" user "hi" None)
         (snd (saveMessage "2024-01-01 12:00:10"
                 (mkMessage None "s1" assistant "a" None)
                 (Some empty_table))))
  = Some skewed_table.
Proof. reflexivity. Qed.

Lemma placeholder_table_reachable :
  snd (createSession "2024-01-01 12:00:00" "s1" (Some empty_table))
  = Some placeholder_table.
Proof. reflexivity. Qed.

(** *** getAllSessions *)

(** C9: on an open store [getAllSessions] leaves the store as it is and
    returns a duplicate-free list holding exactly the session ids that
    occur in the table, in strictly descending order; a second call with
    no write in between returns the same list. *)
Theorem getAllSessions_distinct_descending : forall t,
  exists sessions,
    getAllSessions (Some t) = (Ok sessions, Some t)
    /\ NoDup sessions
    /\ (forall s, In s sessions <->
                  exists r, In r (rows t) /\ row_session_id r = s)
    /\ StronglySorted Collation.gt sessions
    /\ getAllSessions (snd (getAllSessions (Some t)))
       = (Ok sessions, Some t).
Proof.
  intros t. exists (select_sessions t).
  split; [reflexivity|].
  split; [apply select_sessions_NoDup|].
  split; [apply select_sessions_In|].
  split; [apply select_sessions_sorted | reflexivity].
Qed.

(** *** createSession *)

(** C7: on an open store [createSession x] appends exactly one row, the
    placeholder (x, assistant, empty content) under a fresh id; afterwards
    [getAllSessions] lists x, and [getConversationHistory x] returns the
    earlier turns of x together with the placeholder, so it is not empty.
    A second call appends a second placeholder under another id. *)
Theorem createSession_inserts_placeholder (E : SqlEngine) : forall now x t,
  let placeholder := mkRow (next_rowid t) x assistant "" now in
  exists t',
    createSession now x (Some t) = (Ok tt, Some t')
    /\ rows t' = rows t ++ [placeholder]
    /\ (exists sessions,
          getAllSessions (Some t') = (Ok sessions, Some t')
          /\ In x sessions)
    /\ (exists turns,
          getConversationHistory x (Some t')
          = (Ok (map message_of_row turns), Some t')
          /\ Permutation turns
               (filter (in_session x) (rows t) ++ [placeholder])
          /\ map message_of_row turns <> [])
    /\ (forall now2, exists t'',
          createSession now2 x (Some t') = (Ok tt, Some t'')
          /\ rows t'' = rows t ++ [placeholder;
                                   mkRow (next_rowid t') x assistant "" now2]
          /\ next_rowid t' <> next_rowid t).
Proof.
  intros now x t placeholder.
  exists (snd (insert_row now x assistant "" t)).
  split; [reflexivity|]. split; [reflexivity|].
  assert (P : Permutation
                (select_history x (snd (insert_row now x assistant "" t)))
                (filter (in_session x) (rows t) ++ [placeholder])).
  { rewrite select_history_perm. simpl. rewrite filter_app. simpl.
    now rewrite in_session_refl. }
  split; [|split].
  - exists (select_sessions (snd (insert_row now x assistant "" t))).
    split; [reflexivity|]. apply select_sessions_In.
    exists placeholder. split; [|reflexivity].
    simpl. apply in_or_app. right. now left.
  - exists (select_history x (snd (insert_row now x assistant "" t))).
    split; [reflexivity|]. split; [exact P|].
    intros Hnil. apply map_eq_nil in Hnil. rewrite Hnil in P.
    apply Permutation_nil in P. now destruct (filter _ _).
  - intros now2. eexists. split; [reflexivity|]. split.
    + simpl. now rewrite <- app_assoc.
    + pose proof (next_rowid_grows now x assistant "" t). lia.
Qed.

(** *** deleteSession *)

(** C8: on an open store [deleteSession] succeeds and removes the rows of
    the session and no others; afterwards the history of the session is
    empty and [getAllSessions] does not list it.  Deleting again succeeds
    and changes nothing, and deleting a session with no rows leaves the
    store as it was. *)
Theorem deleteSession_removes_session (E : SqlEngine) : forall sessionId t,
  exists t',
    deleteSession sessionId (Some t) = (Ok tt, Some t')
    /\ rows t' = filter (fun r => negb (in_session sessionId r)) (rows t)
    /\ getConversationHistory sessionId (Some t') = (Ok [], Some t')
    /\ (exists sessions,
          getAllSessions (Some t') = (Ok sessions, Some t')
          /\ ~ In sessionId sessions)
    /\ deleteSession sessionId (Some t') = (Ok tt, Some t')
    /\ ((forall r, In r (rows t) -> row_session_id r <> sessionId) ->
        t' = t).
Proof.
  intros sid t. exists (delete_rows sid t).
  split; [reflexivity|]. split; [reflexivity|]. split; [|split; [|split]].
  - unfold getConversationHistory, select_history. simpl.
    now rewrite filter_negb_in_session, engine_nil.
  - exists (select_sessions (delete_rows sid t)).
    split; [reflexivity|].
    rewrite select_sessions_In. intros (r & Hr & Hs).
    simpl in Hr. apply filter_In in Hr. destruct Hr as [_ Hr].
    apply in_session_iff in Hs. rewrite Hs in Hr. discriminate.
  - unfold deleteSession, delete_rows. simpl.
    now rewrite filter_negb_idem.
  - intros Hunknown. unfold delete_rows.
    rewrite filter_negb_unknown by assumption. now destruct t.
Qed.

(** C8, witness: deleting "ghost" from a store that only knows "s1". *)
Lemma deleteSession_removes_session_witness :
  (forall r, In r (rows tied_table) -> row_session_id r <> "ghost")
  /\ deleteSession "ghost" (Some tied_table) = (Ok tt, Some tied_table).
Proof.
  assert (H : forall r, In r (rows tied_table) -> row_session_id r <> "ghost").
  { simpl. intros r [<- | [<- | []]]; simpl; discriminate. }
  split; [exact H|].
  destruct (deleteSession_removes_session stable_engine "ghost" tied_table)
    as (t' & Hdel & _ & _ & _ & _ & Hsame).
  rewrite Hdel. now rewrite (Hsame H).
Defined.

End StoreProperties.

(** ** The chat endpoint *)

Module ServerFacts.
Import Database Json Server DatabaseFacts Requests.
Local Open Scope list_scope.

Lemma append_assoc : forall a b c : string,
  ((a ++ b) ++ c = a ++ (b ++ c))%string.
Proof. induction a as [|x a IH]; intros; simpl; [reflexivity | now rewrite IH]. Qed.

Lemma append_nil_r : forall a : string, (a ++ "" = a)%string.
Proof. induction a as [|x a IH]; simpl; [reflexivity | now rewrite IH]. Qed.

Lemma relay_run : forall chunks ending acc w,
  relay chunks ending acc w
  = match ending with
    | StreamCompletes =>
        (Ok (acc ++ concat_all chunks)%string,
         mkWorld (db w) (log w ++ relay_events chunks ++ [StreamDone]))
    | StreamFails =>
        (Throw UpstreamError,
         mkWorld (db w) (log w ++ relay_events chunks ++ [ModelFailed]))
    end.
Proof.
  induction chunks as [|c chunks IH]; intros ending acc w; simpl.
  - destruct ending; unfold bind, emit, ret, throw; simpl;
      now rewrite ?append_nil_r.
  - unfold bind at 1. unfold emit at 1. simpl.
    unfold bind at 1. unfold emit at 1. simpl.
    rewrite IH. simpl.
    destruct ending; rewrite <- ?app_assoc; simpl; now rewrite ?append_assoc.
Qed.

Ltac run_handler :=
  unfold handle, chat, try_catch, save, read_history, call_stream,
    call_invoke, on_db, bind, emit, ret, throw; simpl.

Lemma handle_invalid (E : SqlEngine) chatModel now_user now_reply body store :
  falsy (body_message body) = true ->
  handle chatModel now_user now_reply body store
  = (store, [ResStatus 400; ResJson [("error", JString "Message is required")]]).
Proof. intros Hf. run_handler. rewrite Hf. reflexivity. Qed.

Lemma handle_closed_store (E : SqlEngine) chatModel now_user now_reply body :
  falsy (body_message body) = false ->
  handle chatModel now_user now_reply body None = (None, error_reply).
Proof. intros Hf. run_handler. rewrite Hf. reflexivity. Qed.

Lemma handle_streaming (E : SqlEngine) chatModel now_user now_reply body t :
  falsy (body_message body) = false ->
  body_streaming body = Some true ->
  handle chatModel now_user now_reply body (Some t)
  = let opening :=
      [Saved (user_turn body t); HistoryRead (session_of body)]
      ++ sse_headers ++ [ModelStream (transcript E now_user body t)] in
    match stream chatModel (transcript E now_user body t) with
    | StreamRejects =>
        (Some (after_user now_user body t),
         opening ++ [ModelFailed] ++ error_reply)
    | StreamYields chunks StreamFails =>
        (Some (after_user now_user body t),
         opening ++ relay_events chunks ++ [ModelFailed] ++ error_reply)
    | StreamYields chunks StreamCompletes =>
        (Some (after_reply now_user now_reply body t (concat_all chunks)),
         opening ++ relay_events chunks
         ++ [StreamDone;
             Saved (assistant_turn now_user body t (concat_all chunks));
             ResWrite done_event; ResEnd])
    end.
Proof.
  intros Hf Hs. run_handler. rewrite Hf, Hs. simpl.
  fold (session_of body). fold (user_row now_user body t).
  fold (after_user now_user body t). fold (history_read E now_user body t).
  fold (transcript E now_user body t).
  destruct (stream chatModel (transcript E now_user body t))
    as [|chunks ending]; simpl; [reflexivity|].
  rewrite relay_run. destruct ending; simpl.
  - unfold after_reply, assistant_turn, assistant_row.
    rewrite <- !app_assoc. reflexivity.
  - rewrite <- !app_assoc. reflexivity.
Qed.

Lemma handle_buffered (E : SqlEngine) chatModel now_user now_reply body t :
  falsy (body_message body) = false ->
  body_streaming body <> Some true ->
  handle chatModel now_user now_reply body (Some t)
  = let opening :=
      [Saved (user_turn body t); HistoryRead (session_of body);
       ModelInvoke (transcript E now_user body t)] in
    match invoke chatModel (transcript E now_user body t) with
    | InvokeRejects =>
        (Some (after_user now_user body t),
         opening ++ [ModelFailed] ++ error_reply)
    | InvokeReturns answer =>
        (Some (after_reply now_user now_reply body t answer),
         opening ++ [ModelInvokeDone answer;
                     Saved (assistant_turn now_user body t answer);
                     ResJson [("message", JString answer)]])
    end.
Proof.
  intros Hf Hs. run_handler. rewrite Hf.
  destruct (body_streaming body) as [[|]|]; [congruence| |]; simpl;
    fold (session_of body); fold (user_row now_user body t);
    fold (after_user now_user body t); fold (history_read E now_user body t);
    fold (transcript E now_user body t);
    (destruct (invoke chatModel (transcript E now_user body t)); simpl;
     [ unfold after_reply, assistant_turn, assistant_row;
       rewrite <- ?app_assoc; reflexivity
     | reflexivity ]).
Qed.

End ServerFacts.

Module SseFacts.
Import Json Server SseClient Requests ServerFacts.

Lemma parse_escape_char : forall a tail,
  parse_string_body (escape_char a ++ tail)
  = cons_char a (parse_string_body tail).
Proof.
  intros a tail.
  destruct a as [[|] [|] [|] [|] [|] [|] [|] [|]]; reflexivity.
Qed.

Lemma parse_escape : forall s tail,
  parse_string_body (escape s ++ String dquote tail) = Some (s, tail).
Proof.
  induction s as [|a s IH]; intros tail; simpl.
  - reflexivity.
  - now rewrite append_assoc, parse_escape_char, IH.
Qed.


(** No space inside the payloads: the serializer writes compact JSON. *)
Lemma done_event_text :
  done_event
  = ("data: {" ++ String dquote "done" ++ String dquote ":true}"
     ++ String newline (String newline ""))%string.
Proof. reflexivity. Qed.

Lemma content_event_text : forall c,
  content_event c
  = ("data: {" ++ String dquote "content" ++ String dquote ":"
     ++ quote c ++ "}" ++ String newline (String newline ""))%string.
Proof.
  intros c. unfold content_event, sse, stringify. simpl.
  now rewrite !append_assoc.
Qed.

End SseFacts.

Module LogFacts.
Import Database Json Server Requests ServerFacts LogOrder.
Local Open Scope list_scope.

Lemma strictly_before_split P Q l1 l2 :
  Forall (fun b => Q b = false) l1 ->
  Forall (fun a => P a = false) l2 ->
  strictly_before P Q (l1 ++ l2).
Proof.
  intros H1 H2 i j a b Hi Hj Pa Qb.
  rewrite Forall_forall in H1, H2.
  assert (Hil : i < List.length l1).
  { destruct (Nat.lt_ge_cases i (List.length l1)) as [|Hge]; [assumption|].
    rewrite nth_error_app2 in Hi by assumption.
    apply nth_error_In, H2 in Hi. congruence. }
  assert (Hjl : List.length l1 <= j).
  { destruct (Nat.lt_ge_cases j (List.length l1)) as [Hlt|]; [|assumption].
    rewrite nth_error_app1 in Hj by assumption.
    apply nth_error_In, H1 in Hj. congruence. }
  lia.
Qed.

Lemma strictly_before_none P Q l :
  Forall (fun a => P a = false) l -> strictly_before P Q l.
Proof.
  intros H. rewrite <- (app_nil_l l).
  apply strictly_before_split; [constructor | exact H].
Qed.

Lemma relay_events_Forall (P : Event -> Prop) chunks :
  (forall c, P (StreamChunk c)) ->
  (forall c, P (ResWrite (content_event c))) ->
  Forall P (relay_events chunks).
Proof.
  intros H1 H2. induction chunks as [|c chunks IH]; simpl;
    repeat constructor; auto.
Qed.

Lemma writes_app l1 l2 : writes (l1 ++ l2) = writes l1 ++ writes l2.
Proof. unfold writes. apply flat_map_app. Qed.

Lemma writes_relay_events chunks :
  writes (relay_events chunks) = map content_event chunks.
Proof.
  induction chunks as [|c chunks IH]; simpl; [reflexivity|].
  f_equal. exact IH.
Qed.

Lemma no_event_at (P : Event -> bool) l j b :
  Forall (fun e => P e = false) l ->
  nth_error l j = Some b -> P b = true -> False.
Proof.
  intros F Hj Pb. rewrite Forall_forall in F.
  apply nth_error_In, F in Hj. congruence.
Qed.

(** A log in three phases: up to the call, the call, after the call. *)
Lemma phases_ordered pre call post :
  Forall (fun e => call_event e = false) pre ->
  Forall (fun e => user_saved e = false) call ->
  Forall (fun e => assistant_saved e = false) pre ->
  Forall (fun e => assistant_saved e = false) call ->
  Forall (fun e => user_saved e = false) post ->
  Forall (fun e => call_event e = false) post ->
  strictly_before user_saved call_event (pre ++ call ++ post)
  /\ strictly_before call_event assistant_saved (pre ++ call ++ post).
Proof.
  intros H1 H2 H3 H4 H5 H6. split.
  - apply strictly_before_split; [assumption|].
    apply Forall_app; split; assumption.
  - rewrite app_assoc. apply strictly_before_split; [|assumption].
    apply Forall_app; split; assumption.
Qed.

End LogFacts.

Module ChatProperties.
Import Database Json Server SseClient Requests LogOrder Readings Scenarios.
Import DatabaseFacts StoreProperties ServerFacts LogFacts.
Local Open Scope list_scope.

(** *** Validation *)



(** *** The buffered reply *)

(** C10: when a request that does not ask for streaming gets an answer from
    the model, the handler appends the user turn and then an assistant turn
    whose content is that answer, and ends by sending [{message: answer}]:
    the only body it sends carries the text of the stored assistant turn. *)
Theorem buffered_reply_is_persisted_answer (E : SqlEngine) :
  forall chatModel now_user now_reply body t answer,
    falsy (body_message body) = false ->
    body_streaming body <> Some true ->
    invoke chatModel (transcript E now_user body t) = InvokeReturns answer ->
    exists t' earlier,
      handle chatModel now_user now_reply body (Some t)
      = (Some t', earlier ++ [ResJson [("message", JString answer)]])
      /\ rows t'
         = rows t ++ [user_row now_user body t;
                      mkRow (next_rowid (after_user now_user body t))
                            (session_of body) assistant answer now_reply]
      /\ In (ModelInvoke (transcript E now_user body t)) earlier
      /\ In (Saved (assistant_turn now_user body t answer)) earlier
      /\ Forall (fun e => match e with
                          | ResJson _ | ResWrite _ => False
                          | _ => True
                          end) earlier.
Proof.
  intros chatModel now_user now_reply body t answer Hf Hs Hanswer.
  rewrite (handle_buffered E) by assumption. cbv zeta. rewrite Hanswer.
  exists (after_reply now_user now_reply body t answer).
  exists [Saved (user_turn body t); HistoryRead (session_of body);
          ModelInvoke (transcript E now_user body t); ModelInvokeDone answer;
          Saved (assistant_turn now_user body t answer)].
  split; [reflexivity|]. split; [reflexivity|]. split; [|split].
  - simpl. auto.
  - simpl. auto 6.
  - repeat constructor.
Qed.

(** C10, witness: "hi" in session "s1", answered "hello". *)
Lemma buffered_reply_is_persisted_answer_witness :
  exists t' earlier,
    handle (E := stable_engine) scripted_model
           "2024-01-01 12:00:01" "2024-01-01 12:00:02"
           (mkChatBody (Some "hi") (Some "s1") None) (Some tied_table)
    = (Some t', earlier ++ [ResJson [("message", JString "hello")]])
    /\ rows t'
       = rows tied_table
         ++ [mkRow 3 "s1" user "hi" "2024-01-01 12:00:01";
             mkRow 4 "s1" assistant "hello" "2024-01-01 12:00:02"].
Proof.
  destruct (buffered_reply_is_persisted_answer stable_engine scripted_model
              "2024-01-01 12:00:01" "2024-01-01 12:00:02"
              (mkChatBody (Some "hi") (Some "s1") None) tied_table "hello")
    as (t' & earlier & Hrun & Hrows & _);
    [reflexivity | discriminate | reflexivity |].
  exists t', earlier. split; [exact Hrun | exact Hrows].
Defined.

(** *** The streamed reply *)



(** *** The order of persistence and completion *)

Ltac quiet :=
  unfold sse_headers, error_reply;
  repeat first
    [ apply Forall_nil
    | apply Forall_cons;
      [repeat split; first [reflexivity | discriminate] |]
    | apply Forall_app; split
    | apply relay_events_Forall; intros;
      repeat split; first [reflexivity | discriminate] ].

Ltac absent P :=
  exfalso;
  match goal with
  | Hj : nth_error ?l ?j = Some ?b |- _ =>
      apply (no_event_at P l j b); [quiet | exact Hj | assumption]
  end.

Lemma call_finished_event e : call_finished e = true -> call_event e = true.
Proof. destruct e; simpl; congruence. Qed.

Lemma call_issued_event e : call_issued e = true -> call_event e = true.
Proof. destruct e; simpl; congruence. Qed.

(** A run that saved the user turn first. *)
Lemma ordered_run u pre call post :
  user_saved (Saved u) = true ->
  Forall (fun e => call_event e = false /\ assistant_saved e = false) pre ->
  Forall (fun e => user_saved e = false /\ assistant_saved e = false) call ->
  Forall (fun e => user_saved e = false /\ call_event e = false) post ->
  let log := Saved u :: pre ++ call ++ post in
  strictly_before user_saved call_event log
  /\ (forall j b, nth_error log j = Some b -> call_issued b = true -> 0 < j)
  /\ strictly_before call_event assistant_saved log.
Proof.
  intros Hu Hpre Hcall Hpost log.
  assert (Hu' : assistant_saved (Saved u) = false).
  { simpl in *. destruct (role u); simpl in *; congruence. }
  destruct (phases_ordered (Saved u :: pre) call post) as [O1 O2].
  - constructor; [reflexivity|]. eapply Forall_impl; [|exact Hpre]. now intros ? [? ?].
  - eapply Forall_impl; [|exact Hcall]. now intros ? [? ?].
  - constructor; [exact Hu'|]. eapply Forall_impl; [|exact Hpre]. now intros ? [? ?].
  - eapply Forall_impl; [|exact Hcall]. now intros ? [? ?].
  - eapply Forall_impl; [|exact Hpost]. now intros ? [? ?].
  - eapply Forall_impl; [|exact Hpost]. now intros ? [? ?].
  - split; [exact O1|]. split; [|exact O2].
    intros [|j] b Hj Hb; [|lia].
    simpl in Hj. inversion Hj; subst. discriminate.
Qed.

Lemma finished_before_saved log front d post :
  log = front ++ d :: post ->
  call_finished d = true ->
  strictly_before call_event assistant_saved log ->
  forall j b, nth_error log j = Some b -> assistant_saved b = true ->
    exists i a, i < j /\ nth_error log i = Some a /\ call_finished a = true.
Proof.
  intros Hlog Hd Hord j b Hj Hb.
  assert (Hi : nth_error log (List.length front) = Some d).
  { rewrite Hlog, nth_error_app2, Nat.sub_diag by lia. reflexivity. }
  exists (List.length front), d. split; [|split; assumption].
  apply (Hord _ _ d b); auto using call_finished_event.
Qed.

Lemma not_in_Forall {A} (x : A) l : Forall (fun e => e <> x) l -> ~ In x l.
Proof. rewrite Forall_forall. intros F Hin. exact (F x Hin eq_refl). Qed.

(** A run without any save or call. *)
Lemma in_order_idle now_user body store log :
  Forall (fun e => user_saved e = false /\ assistant_saved e = false
                   /\ call_event e = false) log ->
  (forall t, store = Some t -> falsy (body_message body) = true) ->
  in_order now_user body store store log.
Proof.
  intros Hq Hstore.
  assert (Q1 : Forall (fun e => user_saved e = false) log)
    by (eapply Forall_impl; [|exact Hq]; now intros ? (? & ? & ?)).
  assert (Q2 : Forall (fun e => assistant_saved e = false) log)
    by (eapply Forall_impl; [|exact Hq]; now intros ? (? & ? & ?)).
  assert (Q3 : Forall (fun e => call_issued e = false) log).
  { eapply Forall_impl; [|exact Hq]. intros e (_ & _ & He).
    destruct e; simpl in *; congruence. }
  split; [now apply strictly_before_none|].
  split; [intros j b Hj Hb; exfalso;
          exact (no_event_at call_issued log j b Q3 Hj Hb)|].
  split; [apply strictly_before_none|].
  { eapply Forall_impl; [|exact Hq]. now intros ? (? & ? & ?). }
  split; [intros j b Hj Hb; exfalso;
          exact (no_event_at assistant_saved log j b Q2 Hj Hb)|].
  intros t Ht Hf. rewrite (Hstore t Ht) in Hf. discriminate.
Qed.

(** A run that saved the user turn, called the model and failed. *)
Lemma in_order_failed now_user body t pre call log :
  log = Saved (user_turn body t) :: pre ++ call ++ error_reply ->
  Forall (fun e => call_event e = false /\ assistant_saved e = false) pre ->
  Forall (fun e => user_saved e = false /\ assistant_saved e = false) call ->
  in_order now_user body (Some t) (Some (after_user now_user body t)) log.
Proof.
  intros -> Hpre Hcall.
  destruct (ordered_run (user_turn body t) pre call error_reply)
    as (O1 & O2 & O3); try reflexivity; try assumption; [quiet|].
  split; [exact O1|]. split; [|split; [exact O3|split]].
  - intros j b Hj Hb. exists t, (after_user now_user body t).
    repeat split; auto; [eapply O2; eauto|].
    simpl. apply in_or_app. right. now left.
  - intros j b Hj Hb. exfalso.
    apply (no_event_at assistant_saved _ j b) in Hj; auto.
    constructor; [reflexivity|].
    repeat (apply Forall_app; split);
      try (eapply Forall_impl; [|eassumption]; now intros ? [? ?]).
    quiet.
  - intros t0 Ht0 _. inversion Ht0; subst t0.
    exists (after_user now_user body t), []. simpl. auto.
Qed.

(** A run that saved the user turn, called the model, got the whole answer
    and saved it. *)
Lemma in_order_answered now_user now_reply body t pre call d answer post log :
  log = Saved (user_turn body t)
        :: pre ++ (call ++ [d])
        ++ Saved (assistant_turn now_user body t answer) :: post ->
  call_finished d = true ->
  Forall (fun e => call_event e = false /\ assistant_saved e = false) pre ->
  Forall (fun e => user_saved e = false /\ assistant_saved e = false
                   /\ e <> ModelFailed) call ->
  Forall (fun e => user_saved e = false /\ call_event e = false) post ->
  in_order now_user body (Some t)
           (Some (after_reply now_user now_reply body t answer)) log.
Proof.
  intros -> Hd Hpre Hcall Hpost.
  assert (Hd' : user_saved d = false /\ assistant_saved d = false
                /\ d <> ModelFailed) by (destruct d; now simpl in * ).
  destruct (ordered_run (user_turn body t) pre (call ++ [d])
              (Saved (assistant_turn now_user body t answer) :: post))
    as (O1 & O2 & O3); try reflexivity; try assumption.
  { apply Forall_app; split; [|constructor; [tauto | constructor]].
    eapply Forall_impl; [|exact Hcall]. now intros ? (? & ? & ?). }
  { constructor; [split; reflexivity | assumption]. }
  split; [exact O1|]. split; [|split; [exact O3|split]].
  - intros j b Hj Hb.
    exists t, (after_reply now_user now_reply body t answer).
    repeat split; auto; [eapply O2; eauto|].
    simpl. apply in_or_app. right. now left.
  - intros j b Hj Hb. split.
    + apply not_in_Forall. constructor; [discriminate|].
      repeat (apply Forall_app; split).
      * eapply Forall_impl; [|exact Hpre]. intros e [He _] ->. discriminate.
      * eapply Forall_impl; [|exact Hcall]. now intros ? (? & ? & ?).
      * constructor; [tauto | constructor].
      * constructor; [discriminate|].
        eapply Forall_impl; [|exact Hpost]. intros e [_ He] ->. discriminate.
    + eapply (finished_before_saved _
                (Saved (user_turn body t) :: pre ++ call) d); eauto.
      simpl. now rewrite <- !app_assoc.
  - intros t0 Ht0 _. inversion Ht0; subst t0.
    exists (after_reply now_user now_reply body t answer),
           [assistant_row now_user now_reply body t answer].
    repeat split; auto.
    intros Hin. exfalso. revert Hin. apply not_in_Forall.
    constructor; [discriminate|].
    repeat (apply Forall_app; split).
    * eapply Forall_impl; [|exact Hpre]. intros e [He _] ->. discriminate.
    * eapply Forall_impl; [|exact Hcall]. now intros ? (? & ? & ?).
    * constructor; [tauto | constructor].
    * constructor; [discriminate|].
      eapply Forall_impl; [|exact Hpost]. intros e [_ He] ->. discriminate.
Qed.

(** C1: in every run of the handler, streaming or not,
    - every save of a user turn precedes every event of the completion
      call, and the call is only issued in a run that began by saving the
      request's user turn, whose row is in the final store;
    - every event of the completion call (its start, each chunk, its end)
      precedes the save of the assistant turn, which only happens in a run
      whose call completed or drained and did not fail;
    - on an open store a request with a message ends with the store it
      started from plus the user row plus at most one more row, and with no
      more row when the call failed: the user turn stays. *)
Theorem chat_persistence_order (E : SqlEngine) :
  forall chatModel now_user now_reply body store,
    let store' := fst (handle chatModel now_user now_reply body store) in
    let log := snd (handle chatModel now_user now_reply body store) in
    strictly_before user_saved call_event log
    /\ (forall j b, nth_error log j = Some b -> call_issued b = true ->
          exists t t',
            store = Some t /\ store' = Some t'
            /\ nth_error log 0 = Some (Saved (user_turn body t)) /\ 0 < j
            /\ In (user_row now_user body t) (rows t'))
    /\ strictly_before call_event assistant_saved log
    /\ (forall j b, nth_error log j = Some b -> assistant_saved b = true ->
          ~ In ModelFailed log
          /\ exists i a,
               i < j /\ nth_error log i = Some a /\ call_finished a = true)
    /\ (forall t, store = Some t -> falsy (body_message body) = false ->
          exists t' reply,
            store' = Some t'
            /\ rows t' = rows t ++ user_row now_user body t :: reply
            /\ List.length reply <= 1
            /\ (In ModelFailed log -> reply = [])).
Proof.
  intros chatModel now_user now_reply body store. cbv zeta.
  change (in_order now_user body store
            (fst (handle chatModel now_user now_reply body store))
            (snd (handle chatModel now_user now_reply body store))).
  destruct (falsy (body_message body)) eqn:Hf.
  { rewrite (handle_invalid E) by assumption. cbn [fst snd].
    apply in_order_idle; [quiet | auto]. }
  destruct store as [t|].
  2:{ rewrite (handle_closed_store E) by assumption. cbn [fst snd].
      apply in_order_idle; [quiet | discriminate]. }
  destruct (body_streaming body) as [[|]|] eqn:Hs.
  1:{ rewrite (handle_streaming E) by assumption. cbv zeta.
      destruct (stream chatModel (transcript E now_user body t))
        as [|chunks [|]]; cbn [fst snd].
      - apply (in_order_failed _ _ _
                 ([HistoryRead (session_of body)] ++ sse_headers)
                 [ModelStream (transcript E now_user body t); ModelFailed]);
          [reflexivity | quiet | quiet].
      - apply (in_order_answered _ _ _ _
                 ([HistoryRead (session_of body)] ++ sse_headers)
                 ([ModelStream (transcript E now_user body t)]
                  ++ relay_events chunks)
                 StreamDone _ [ResWrite done_event; ResEnd]);
          [ simpl; now rewrite <- !app_assoc
          | reflexivity | quiet | quiet | quiet ].
      - apply (in_order_failed _ _ _
                 ([HistoryRead (session_of body)] ++ sse_headers)
                 ([ModelStream (transcript E now_user body t)]
                  ++ relay_events chunks ++ [ModelFailed]));
          [ simpl; now rewrite <- !app_assoc | quiet | quiet ]. }
  all: rewrite (handle_buffered E) by congruence; cbv zeta;
    destruct (invoke chatModel (transcript E now_user body t)) as [answer|];
    cbn [fst snd];
    [ apply (in_order_answered _ _ _ _
               [HistoryRead (session_of body)]
               [ModelInvoke (transcript E now_user body t)]
               (ModelInvokeDone answer) _
               [ResJson [("message", JString answer)]]);
        [reflexivity | reflexivity | quiet | quiet | quiet]
    | apply (in_order_failed _ _ _
               [HistoryRead (session_of body)]
               [ModelInvoke (transcript E now_user body t); ModelFailed]);
        [reflexivity | quiet | quiet] ].
Qed.

(** C1, witness: a failing streaming call on session "s1": the call is
    issued at position 5 of the log, after the save at position 0, and the
    user row is what the request leaves behind. *)
Lemma chat_persistence_order_witness :
  (exists t',
     fst (handle (E := stable_engine) failing_model
            "2024-01-01 12:00:01" "2024-01-01 12:00:02"
            (mkChatBody (Some "hi") (Some "s1") (Some true))
            (Some tied_table)) = Some t'
     /\ In (mkRow 3 "s1" user "hi" "2024-01-01 12:00:01") (rows t'))
  /\ (exists t' reply,
        fst (handle (E := stable_engine) failing_model
               "2024-01-01 12:00:01" "2024-01-01 12:00:02"
               (mkChatBody (Some "hi") (Some "s1") (Some true))
               (Some tied_table)) = Some t'
        /\ rows t'
           = rows tied_table
             ++ mkRow 3 "s1" user "hi" "2024-01-01 12:00:01" :: reply
        /\ reply = []).
Proof.
  destruct (chat_persistence_order stable_engine failing_model
              "2024-01-01 12:00:01" "2024-01-01 12:00:02"
              (mkChatBody (Some "hi") (Some "s1") (Some true))
              (Some tied_table)) as (_ & Hissued & _ & _ & Hkept).
  split.
  - destruct (Hissued 5 (ModelStream [HumanMessage "hi"; AIMessage "hello";
                                      HumanMessage "hi"]))
      as (t & t' & Ht & Ht' & _ & _ & Hin); [reflexivity | reflexivity |].
    inversion Ht; subst t. exists t'. split; [exact Ht' | exact Hin].
  - destruct (Hkept tied_table) as (t' & reply & Ht' & Hrows & _ & Hfail);
      [reflexivity | reflexivity |].
    exists t', reply. repeat split; auto.
    apply Hfail. simpl. tauto.
Defined.

(** *** The transcript handed to the model *)

Lemma history_read_nonempty (E : SqlEngine) now_user body t :
  history_read E now_user body t <> [].
Proof.
  unfold history_read. intros Hnil. apply map_eq_nil in Hnil.
  pose proof (select_history_perm E (session_of body)
                (after_user now_user body t)) as P.
  rewrite Hnil in P. apply Permutation_nil in P.
  unfold after_user in P. simpl in P. rewrite filter_app in P. simpl in P.
  unfold user_row in P at 1. rewrite in_session_refl in P.
  now destruct (filter _ (rows t)).
Qed.

(** What the handler builds: the history as read, without its last turn,
    each turn under its own role, then the incoming text.  It is as long as
    the history. *)
Lemma transcript_shape (E : SqlEngine) now_user body t :
  transcript E now_user body t
  = map to_langchain (removelast (history_read E now_user body t))
    ++ [HumanMessage (text (body_message body))]
  /\ List.length (transcript E now_user body t)
     = List.length (history_read E now_user body t)
  /\ Forall2 (fun m b => match role m with
                         | user => b = HumanMessage (content m)
                         | assistant => b = AIMessage (content m)
                         end)
       (removelast (history_read E now_user body t))
       (removelast (transcript E now_user body t)).
Proof.
  unfold transcript, langchainMessages, slice_0_m1.
  split; [reflexivity|]. split.
  - pose proof (history_read_nonempty E now_user body t) as Hne.
    rewrite (app_removelast_last (mkMessage None "" user "" None) Hne) at 2.
    now rewrite !length_app, length_map.
  - rewrite removelast_last.
    induction (removelast (history_read E now_user body t)) as [|m l IH];
      simpl; constructor; [|exact IH].
    unfold to_langchain. now destruct (role m).
Qed.

Lemma sorted_max_last : forall l others x,
  Permutation l (others ++ [x]) ->
  StronglySorted timestamp_le l ->
  Forall (fun y => timestamp_lt y x) others ->
  exists l', l = l' ++ [x] /\ Permutation l' others.
Proof.
  induction l as [|a l IH]; intros others x P S F.
  - apply Permutation_nil in P. now destruct others.
  - inversion S as [|? ? S' Fa]; subst.
    assert (Ha : In a (others ++ [x]))
      by (apply (Permutation_in _ P); now left).
    apply in_app_or in Ha. destruct Ha as [Ha | [<- | []]].
    + apply in_split in Ha. destruct Ha as (o1 & o2 & ->).
      rewrite <- app_assoc in P. simpl in P.
      apply Permutation_cons_app_inv in P. rewrite app_assoc in P.
      destruct (IH (o1 ++ o2) x P S') as (l' & -> & P').
      { apply Forall_app in F. destruct F as [F1 F2].
        inversion F2; subst. apply Forall_app; split; assumption. }
      exists (a :: l'). split; [reflexivity|].
      now apply Permutation_cons_app.
    + apply (Permutation_cons_app_inv others []) in P.
      rewrite app_nil_r in P.
      destruct l as [|y l].
      * apply Permutation_nil in P. subst others. now exists [].
      * exfalso. inversion Fa as [|? ? Hay _]; subst.
        assert (Hy : In y others) by (apply (Permutation_in _ P); now left).
        rewrite Forall_forall in F. apply F in Hy.
        apply StringOrder.lt_leb_false in Hy.
        unfold timestamp_le in Hay. congruence.
Qed.

(** When the clock at the user turn's INSERT reads strictly later than
    every timestamp of the session, every engine returns that turn last,
    and the handler builds the intended transcript. *)
Lemma transcript_intended_when_latest (E : SqlEngine) now_user body t :
  Forall (fun r => Collation.lt (row_timestamp r) now_user)
         (filter (in_session (session_of body)) (rows t)) ->
  transcript E now_user body t = intended_transcript E now_user body t.
Proof.
  intros Hlatest.
  destruct (sorted_max_last
              (select_history (session_of body) (after_user now_user body t))
              (filter (in_session (session_of body)) (rows t))
              (user_row now_user body t)) as (l' & Hl & P).
  - rewrite select_history_perm. unfold after_user. simpl.
    rewrite filter_app. simpl. unfold user_row at 1.
    now rewrite in_session_refl.
  - apply select_history_sorted.
  - exact Hlatest.
  - unfold transcript, intended_transcript, langchainMessages, slice_0_m1,
      history_read.
    rewrite Hl, map_app. simpl. rewrite removelast_last.
    rewrite filter_app. simpl. unfold is_turn at 2. simpl.
    rewrite Z.eqb_refl. simpl. rewrite app_nil_r. do 2 f_equal.
    symmetry. apply forallb_filter_id. apply forallb_forall.
    intros m Hm. apply in_map_iff in Hm. destruct Hm as (r & <- & Hr).
    apply (Permutation_in _ P), filter_In in Hr. destruct Hr as [Hr _].
    apply next_rowid_fresh in Hr. unfold is_turn. simpl.
    apply negb_true_iff, Z.eqb_neq. lia.
Qed.

(** C3: session "s1" holds one assistant turn stamped 12:00:10 and the
    clock reads 12:00:05 when the user turn "hi" is inserted.  Under every
    engine the query returns the new turn first, [slice(0, -1)] drops the
    older turn instead, and the model is called with "hi" twice; the
    history without the just-saved turn, then the incoming text, is the
    assistant turn followed by "hi". *)
Theorem transcript_repeats_saved_turn_after_clock_step (E : SqlEngine) :
  forall chatModel now_reply,
    let body := mkChatBody (Some "hi") (Some "s1") None in
    let log := snd (handle chatModel "2024-01-01 12:00:05" now_reply body
                           (Some earlier_table)) in
    nth_error log 2 = Some (ModelInvoke [HumanMessage "hi"; HumanMessage "hi"])
    /\ intended_transcript E "2024-01-01 12:00:05" body earlier_table
       = [AIMessage "a"; HumanMessage "hi"].
Proof.
  intros chatModel now_reply body log.
  assert (Hh : @select_history E "s1"
                 (after_user "2024-01-01 12:00:05" body earlier_table)
               = [mkRow 2 "s1" user "hi" "2024-01-01 12:00:05";
                  mkRow 1 "s1" assistant "a" "2024-01-01 12:00:10"]).
  { rewrite (history_engine_independent E stable_engine); [reflexivity|].
    simpl. repeat constructor; simpl; intuition discriminate. }
  assert (Ht : transcript E "2024-01-01 12:00:05" body earlier_table
               = [HumanMessage "hi"; HumanMessage "hi"]).
  { unfold transcript, history_read.
    change (session_of body) with "s1". now rewrite Hh. }
  split.
  - subst log. rewrite (handle_buffered E) by (reflexivity || discriminate).
    cbv zeta. rewrite Ht.
    now destruct (invoke chatModel [HumanMessage "hi"; HumanMessage "hi"]).
  - unfold intended_transcript, history_read.
    change (session_of body) with "s1". now rewrite Hh.
Qed.

(** A first message sent within the second in which the session was
    created: whether the placeholder or the saved copy of the message is
    dropped is up to the engine's order among equal timestamps. *)
Lemma transcript_on_tie_depends_on_engine :
  transcript stable_engine "2024-01-01 12:00:00"
             (mkChatBody (Some "hi") (Some "s1") None) placeholder_table
  = [AIMessage ""; HumanMessage "hi"]
  /\ transcript reversing_engine "2024-01-01 12:00:00"
                (mkChatBody (Some "hi") (Some "s1") None) placeholder_table
     = [HumanMessage "hi"; HumanMessage "hi"].
Proof. split; reflexivity. Qed.

End ChatProperties.

(** ** More on the session store *)

Module StoreFacts.
Import Database DatabaseFacts Tables.
Local Open Scope list_scope.

Lemma StronglySorted_filter {A} (R : A -> A -> Prop) (f : A -> bool) :
  forall l, StronglySorted R l -> StronglySorted R (filter f l).
Proof.
  induction l as [|a l IH]; intros S; simpl; [constructor|].
  inversion S as [|? ? S' F]; subst.
  destruct (f a); [|auto].
  constructor; [auto|].
  rewrite Forall_forall in *. intros x Hx.
  apply filter_In in Hx. now apply F.
Qed.

Lemma StronglySorted_snoc {A} (R : A -> A -> Prop) : forall l x,
  StronglySorted R l -> Forall (fun y => R y x) l ->
  StronglySorted R (l ++ [x]).
Proof.
  induction l as [|a l IH]; intros x S F; simpl.
  - repeat constructor.
  - inversion S as [|? ? S' Fa]; subst. inversion F; subst.
    constructor; [now apply IH|].
    apply Forall_app; split; [assumption | now constructor].
Qed.

Lemma StronglySorted_NoDup {A} (R : A -> A -> Prop) :
  (forall x, ~ R x x) -> forall l, StronglySorted R l -> NoDup l.
Proof.
  intros Hirr. induction l as [|a l IH]; intros S; constructor;
    inversion S as [|? ? S' F]; subst; [|auto].
  intros Hin. rewrite Forall_forall in F. exact (Hirr a (F a Hin)).
Qed.



Lemma next_rowid_above_sequence t : (sqlite_sequence t < next_rowid t)%Z.
Proof. unfold next_rowid. lia. Qed.




Lemma filter_in_session_other sid sid' : forall l,
  sid' <> sid ->
  filter (in_session sid')
         (filter (fun r => negb (in_session sid r)) l)
  = filter (in_session sid') l.
Proof.
  intros l Hne. induction l as [|x l IH]; simpl; [reflexivity|].
  destruct (in_session sid x) eqn:E; simpl.
  - destruct (in_session sid' x) eqn:E'; [|exact IH].
    apply in_session_iff in E, E'. congruence.
  - destruct (in_session sid' x); [now f_equal | exact IH].
Qed.

Lemma in_session_other now i sid sid' r c :
  sid' <> sid -> in_session sid' (mkRow i sid r c now) = false.
Proof.
  intros Hne. destruct (in_session sid' (mkRow i sid r c now)) eqn:E;
    [|reflexivity].
  apply in_session_iff in E. simpl in E. congruence.
Qed.

Lemma select_history_insert_other (E : SqlEngine) now sid r c sid' t :
  sid' <> sid ->
  select_history sid' (snd (insert_row now sid r c t)) = select_history sid' t.
Proof.
  intros Hne. unfold select_history. simpl. rewrite filter_app. simpl.
  now rewrite in_session_other, app_nil_r.
Qed.

Lemma select_history_delete_other (E : SqlEngine) sid sid' t :
  sid' <> sid ->
  select_history sid' (delete_rows sid t) = select_history sid' t.
Proof.
  intros Hne. unfold select_history. simpl.
  now rewrite filter_in_session_other.
Qed.

Lemma stamped_before_irrefl x : ~ stamped_before x x.
Proof. apply StringOrder.lt_irrefl. Qed.

Lemma stamped_before_trans x y z :
  stamped_before x y -> stamped_before y z -> stamped_before x z.
Proof. apply StringOrder.lt_trans. Qed.

Lemma stamped_before_le : forall l,
  StronglySorted stamped_before l -> StronglySorted timestamp_le l.
Proof.
  induction l as [|a l IH]; intros S; [constructor|].
  inversion S as [|? ? S' F]; subst. constructor; [auto|].
  eapply Forall_impl; [|exact F]. intros b Hab.
  apply StringOrder.leb_iff. now left.
Qed.

Lemma stamped_before_distinct : forall l,
  StronglySorted stamped_before l -> NoDup (map row_timestamp l).
Proof.
  induction l as [|a l IH]; intros S; simpl; [constructor|].
  inversion S as [|? ? S' F]; subst. constructor; [|auto].
  intros Hin. apply in_map_iff in Hin. destruct Hin as (x & Hx & Hin).
  rewrite Forall_forall in F. specialize (F x Hin).
  unfold stamped_before in F. rewrite Hx in F.
  now apply StringOrder.lt_irrefl in F.
Qed.

(** Rows already in strict timestamp order are returned as they are. *)
Lemma order_by_chronological (E : SqlEngine) l :
  StronglySorted stamped_before l -> order_by_timestamp l = l.
Proof.
  intros S.
  apply (strictly_sorted_unique stamped_before).
  - exact stamped_before_irrefl.
  - exact stamped_before_trans.
  - assert (Hs : StronglySorted timestamp_le (order_by_timestamp l)).
    { apply Sorted_StronglySorted; [exact timestamp_le_trans|].
      apply order_by_timestamp_sorted. }
    assert (Hd : NoDup (map row_timestamp (order_by_timestamp l))).
    { eapply Permutation_NoDup; [|apply stamped_before_distinct, S].
      apply Permutation_map, Permutation_sym, order_by_timestamp_perm. }
    clear S. induction (order_by_timestamp l) as [|a l' IH];
      [constructor|].
    inversion Hs as [|? ? Hs' F]; subst. simpl in Hd. inversion Hd; subst.
    constructor; [auto|].
    rewrite Forall_forall in *. intros b Hb.
    destruct (proj1 (StringOrder.leb_iff _ _) (F b Hb)) as [Hlt | Heq];
      [exact Hlt|].
    exfalso. match goal with H : ~ In _ _ |- _ => apply H end.
    rewrite Heq. now apply in_map.
  - exact S.
  - intros x. split; apply Permutation_in;
      [apply order_by_timestamp_perm
      | apply Permutation_sym, order_by_timestamp_perm].
Qed.

End StoreFacts.

Module StoreExtras.
Import Database DatabaseFacts Tables StoreFacts Readings Scenarios.
Local Open Scope list_scope.


Lemma tied_table_valid : valid_ids tied_table.
Proof.
  split.
  - repeat constructor; unfold id_lt; simpl; lia.
  - repeat constructor; simpl; lia.
Qed.


(** X2: rowids are never reused.  On a table with valid ids, after deleting
    any session, the id [saveMessage] returns is larger than the id of
    every row the table held before the deletion, deleted rows included. *)
Theorem ids_never_reused : forall t deleted now message,
  valid_ids t ->
  exists i saved t',
    saveMessage now message (snd (deleteSession deleted (Some t)))
    = (Ok saved, Some t')
    /\ id saved = Some i
    /\ Forall (fun r => (row_id r < i)%Z) (rows t).
Proof.
  intros t deleted now message [_ B].
  exists (next_rowid (delete_rows deleted t)). eexists. eexists.
  split; [reflexivity|]. split; [reflexivity|].
  eapply Forall_impl; [|exact B]. intros r Hr. simpl in Hr.
  pose proof (next_rowid_above_sequence (delete_rows deleted t)) as H.
  simpl in H. lia.
Qed.

(** X2, witness: after deleting both turns of "s1" the next id is 3. *)
Lemma ids_never_reused_witness :
  exists i saved t',
    saveMessage "2024-01-01 12:00:09" (mkMessage None "s2" user "again" None)
                (snd (deleteSession "s1" (Some tied_table)))
    = (Ok saved, Some t')
    /\ id saved = Some i
    /\ Forall (fun r => (row_id r < i)%Z) (rows tied_table).
Proof.
  exact (ids_never_reused tied_table "s1" "2024-01-01 12:00:09"
           (mkMessage None "s2" user "again" None) tied_table_valid).
Defined.

(** X3: a write to one session leaves the history of every other session
    as it was, under every engine: this holds for [saveMessage],
    [createSession] and [deleteSession]. *)
Theorem writes_leave_other_sessions (E : SqlEngine) :
  forall t written other,
    other <> written ->
    (forall now message, session_id message = written ->
       fst (getConversationHistory other
              (snd (saveMessage now message (Some t))))
       = fst (getConversationHistory other (Some t)))
    /\ (forall now,
          fst (getConversationHistory other
                 (snd (createSession now written (Some t))))
          = fst (getConversationHistory other (Some t)))
    /\ fst (getConversationHistory other
              (snd (deleteSession written (Some t))))
       = fst (getConversationHistory other (Some t)).
Proof.
  intros t written other Hne. split; [|split].
  - intros now message <-.
    change (snd (saveMessage now message (Some t)))
      with (Some (snd (insert_row now (session_id message) (role message)
                                  (content message) t))).
    cbn [getConversationHistory fst].
    now rewrite select_history_insert_other.
  - intros now.
    change (snd (createSession now written (Some t)))
      with (Some (snd (insert_row now written assistant "" t))).
    cbn [getConversationHistory fst].
    now rewrite select_history_insert_other.
  - change (snd (deleteSession written (Some t)))
      with (Some (delete_rows written t)).
    cbn [getConversationHistory fst].
    now rewrite select_history_delete_other.
Qed.

(** X3, witness: writes to "s2" and the history of "s1". *)
Lemma writes_leave_other_sessions_witness :
  fst (getConversationHistory (E := stable_engine) "s1"
         (snd (deleteSession "s2" (Some tied_table))))
  = fst (getConversationHistory (E := stable_engine) "s1" (Some tied_table)).
Proof.
  apply (writes_leave_other_sessions stable_engine tied_table "s2" "s1").
  discriminate.
Defined.

(** X4: what writes do to the list of sessions.  After [saveMessage] the
    list holds the sessions listed before and the session written to, and
    is the same list when that session was already listed; after
    [deleteSession] it is the former list without the deleted id, in the
    same order. *)
Theorem sessions_after_write : forall t,
  (forall now message, exists sessions,
     fst (getAllSessions (snd (saveMessage now message (Some t))))
     = Ok sessions
     /\ (forall s, In s sessions <->
                   s = session_id message \/ In s (select_sessions t))
     /\ (In (session_id message) (select_sessions t) ->
         sessions = select_sessions t))
  /\ (forall deleted,
        fst (getAllSessions (snd (deleteSession deleted (Some t))))
        = Ok (filter (fun s => negb (String.eqb s deleted))
                     (select_sessions t))).
Proof.
  intros t. split.
  - intros now message.
    set (t' := snd (insert_row now (session_id message) (role message)
                               (content message) t)).
    assert (Hin : forall s, In s (select_sessions t')
                            <-> s = session_id message
                                \/ In s (select_sessions t)).
    { intros s. rewrite !select_sessions_In. subst t'. simpl. split.
      - intros (r & Hr & Hs). apply in_app_or in Hr.
        destruct Hr as [Hr | [<- | []]]; [right; eauto | left; now subst s].
      - intros [-> | (r & Hr & Hs)].
        + eexists. split; [apply in_or_app; right; left; reflexivity|].
          reflexivity.
        + exists r. split; [apply in_or_app; now left | exact Hs]. }
    exists (select_sessions t'). split; [reflexivity|].
    split; [exact Hin|].
    intros Hknown. symmetry.
    apply select_sessions_unique; [apply select_sessions_sorted|].
    intros s. rewrite <- select_sessions_In, Hin. split; [auto|].
    intros [-> | H]; assumption.
  - intros deleted.
    change (Ok (select_sessions (delete_rows deleted t))
            = Ok (filter (fun s => negb (String.eqb s deleted))
                         (select_sessions t))).
    f_equal. symmetry.
    apply select_sessions_unique.
    + apply StronglySorted_filter, select_sessions_sorted.
    + intros s. rewrite filter_In, select_sessions_In. simpl. split.
      * intros ((r & Hr & Hs) & Hne). exists r. split; [|exact Hs].
        apply filter_In. split; [exact Hr|].
        unfold in_session. now rewrite Hs.
      * intros (r & Hr & Hs). apply filter_In in Hr.
        destruct Hr as [Hr Hne]. unfold in_session in Hne.
        rewrite Hs in Hne. split; [eauto | exact Hne].
Qed.

(** X4, witness: a second message to "s1" leaves the list as it is. *)
Lemma sessions_after_write_witness :
  fst (getAllSessions
         (snd (saveMessage "2024-01-01 12:00:09"
                 (mkMessage None "s1" user "more" None) (Some tied_table))))
  = Ok (select_sessions tied_table).
Proof.
  destruct (proj1 (sessions_after_write tied_table) "2024-01-01 12:00:09"
              (mkMessage None "s1" user "more" None))
    as (sessions & Hrun & _ & Hsame).
  rewrite Hrun. f_equal. apply Hsame.
  apply select_sessions_In. eexists. split; [left; reflexivity | reflexivity].
Defined.


Lemma history_of_chronological (E : SqlEngine) sessionId t :
  chronological sessionId t ->
  getConversationHistory sessionId (Some t)
  = (Ok (map message_of_row (filter (in_session sessionId) (rows t))),
     Some t).
Proof.
  intros C. unfold getConversationHistory, select_history.
  now rewrite order_by_chronological.
Qed.

(** X6: when the turns of a session were stamped strictly later one after
    the other, [getConversationHistory] returns them in the order they were
    inserted, whatever the engine; on a table with valid ids that is also
    the order of their ids. *)
Theorem chronological_history_in_insertion_order (E : SqlEngine) :
  forall sessionId t,
    chronological sessionId t ->
    getConversationHistory sessionId (Some t)
    = (Ok (map message_of_row (filter (in_session sessionId) (rows t))),
       Some t)
    /\ (valid_ids t ->
        StronglySorted id_lt (filter (in_session sessionId) (rows t))).
Proof.
  intros sid t C. split.
  - now apply history_of_chronological.
  - intros [S _]. now apply StronglySorted_filter.
Qed.

Lemma steady_table_chronological : chronological "s1" steady_table.
Proof. repeat constructor. Qed.

Lemma steady_table_valid : valid_ids steady_table.
Proof.
  split.
  - repeat constructor; unfold id_lt; simpl; lia.
  - repeat constructor; simpl; lia.
Qed.

(** X6, witness: the history of "s1" in [steady_table], under the engine
    that reverses ties. *)
Lemma chronological_history_in_insertion_order_witness :
  getConversationHistory (E := reversing_engine) "s1" (Some steady_table)
  = (Ok (map message_of_row
           [mkRow 1 "s1" user "hi" "2024-01-01 12:00:00";
            mkRow 3 "s1" assistant "hello" "2024-01-01 12:00:01";
            mkRow 4 "s1" user "bye" "2024-01-01 12:00:05"]),
     Some steady_table).
Proof.
  exact (proj1 (chronological_history_in_insertion_order reversing_engine
                  "s1" steady_table steady_table_chronological)).
Defined.

Lemma chronological_insert now sid r c t :
  chronological sid t -> later_than_session now sid t ->
  chronological sid (snd (insert_row now sid r c t)).
Proof.
  intros C L. unfold chronological. simpl. rewrite filter_app. simpl.
  rewrite in_session_refl. apply StronglySorted_snoc; assumption.
Qed.

Lemma chronological_insert_other now sid r c sid' t :
  sid' <> sid -> chronological sid' t ->
  chronological sid' (snd (insert_row now sid r c t)).
Proof.
  intros Hne C. unfold chronological. simpl. rewrite filter_app. simpl.
  now rewrite in_session_other, app_nil_r.
Qed.

(** X7: chronology is kept.  Saving a message when the clock reads strictly
    later than every timestamp of its session keeps that session
    chronological with the new turn last in its history; a save never
    disturbs the chronology of another session, and a deletion none at
    all. *)
Theorem chronology_is_kept (E : SqlEngine) : forall now message t,
  chronological (session_id message) t ->
  later_than_session now (session_id message) t ->
  exists saved t',
    saveMessage now message (Some t) = (Ok saved, Some t')
    /\ chronological (session_id message) t'
    /\ fst (getConversationHistory (session_id message) (Some t'))
       = Ok (map message_of_row
               (filter (in_session (session_id message)) (rows t))
             ++ [mkMessage (id saved) (session_id message) (role message)
                           (content message) (Some now)])
    /\ (forall other, other <> session_id message ->
          chronological other t -> chronological other t')
    /\ (forall other deleted,
          chronological other t ->
          chronological other (delete_rows deleted t)).
Proof.
  intros now message t C L.
  exists (mkMessage (Some (next_rowid t)) (session_id message) (role message)
                    (content message) (timestamp message)).
  exists (snd (insert_row now (session_id message) (role message)
                          (content message) t)).
  split; [reflexivity|].
  assert (C' : chronological (session_id message)
                 (snd (insert_row now (session_id message) (role message)
                                  (content message) t)))
    by now apply chronological_insert.
  split; [exact C'|]. split; [|split].
  - rewrite (history_of_chronological E _ _ C').
    cbn [fst]. f_equal. simpl. rewrite filter_app, map_app. simpl.
    now rewrite in_session_refl.
  - intros other Hne Co. now apply chronological_insert_other.
  - intros other deleted Co. unfold chronological, delete_rows. simpl.
    destruct (string_dec other deleted) as [-> | Hne].
    + rewrite filter_negb_in_session. constructor.
    + now rewrite filter_in_session_other.
Qed.

(** X7, witness: a fourth turn of "s1" stamped :07. *)
Lemma chronology_is_kept_witness :
  exists saved t',
    saveMessage "2024-01-01 12:00:07" (mkMessage None "s1" assistant "ciao" None)
                (Some steady_table) = (Ok saved, Some t')
    /\ chronological "s1" t'.
Proof.
  destruct (chronology_is_kept stable_engine "2024-01-01 12:00:07"
              (mkMessage None "s1" assistant "ciao" None) steady_table)
    as (saved & t' & Hrun & C & _);
    [exact steady_table_chronological | repeat constructor |].
  exists saved, t'. split; [exact Hrun | exact C].
Defined.

(** X8: a session is listed exactly when it has a turn: [getAllSessions]
    returns an id if and only if [getConversationHistory] of that id is
    not empty. *)
Theorem session_listed_iff_history (E : SqlEngine) : forall sessionId t,
  exists sessions turns,
    getAllSessions (Some t) = (Ok sessions, Some t)
    /\ getConversationHistory sessionId (Some t) = (Ok turns, Some t)
    /\ (In sessionId sessions <-> turns <> []).
Proof.
  intros sid t.
  exists (select_sessions t), (map message_of_row (select_history sid t)).
  split; [reflexivity|]. split; [reflexivity|].
  rewrite select_sessions_In. split.
  - intros (r & Hr & Hs) Hnil. apply map_eq_nil in Hnil.
    pose proof (select_history_perm E sid t) as P. rewrite Hnil in P.
    apply Permutation_nil in P.
    assert (Hin : In r (filter (in_session sid) (rows t))).
    { apply filter_In. split; [exact Hr | now apply in_session_iff]. }
    rewrite P in Hin. contradiction.
  - intros Hne.
    destruct (select_history sid t) as [|r l] eqn:Hh; [now elim Hne|].
    assert (Hin : In r (filter (in_session sid) (rows t))).
    { apply (Permutation_in _ (select_history_perm E sid t)).
      rewrite Hh. now left. }
    apply filter_In in Hin. destruct Hin as [Hr Hs].
    exists r. split; [exact Hr | now apply in_session_iff].
Qed.

End StoreExtras.

(** ** The other routes *)

Module RouteExtras.
Import Database DatabaseFacts Server Routes Tables StoreFacts Scenarios.
Import Outcomes.
Local Open Scope list_scope.


Lemma filter_none {A} (f : A -> bool) : forall l,
  (forall x, In x l -> f x = false) -> filter f l = [].
Proof.
  induction l as [|a l IH]; intros H; simpl; [reflexivity|].
  rewrite (H a (or_introl eq_refl)). apply IH. intros x Hx. apply H. now right.
Qed.



(** X11: the life of a session over HTTP, on an open store and for a
    non-empty id x.  POST /api/sessions answers [{success: true}]; then
    GET /api/sessions lists x and GET /api/history/x returns the
    placeholder among the turns of x; DELETE /api/sessions/x answers
    [{success: true}], after which the history of x is the empty list, x is
    no longer listed, the turns of the other sessions are all still there,
    and a second DELETE answers [{success: true}] again and changes
    nothing. *)
Theorem session_lifecycle_over_http (E : SqlEngine) : forall now x t,
  x <> "" ->
  let created := snd (serve (PostSessions now (Some x)) (Some t)) in
  let deleted := snd (serve (DeleteSession x) created) in
  fst (serve (PostSessions now (Some x)) (Some t)) = ok SuccessPayload
  /\ (exists sessions,
        fst (serve GetSessions created) = ok (SessionsPayload sessions)
        /\ In x sessions)
  /\ (exists history,
        fst (serve (GetHistory x) created) = ok (HistoryPayload history)
        /\ In (mkMessage (Some (next_rowid t)) x assistant "" (Some now))
              history)
  /\ fst (serve (DeleteSession x) created) = ok SuccessPayload
  /\ fst (serve (GetHistory x) deleted) = ok (HistoryPayload [])
  /\ (exists sessions,
        fst (serve GetSessions deleted) = ok (SessionsPayload sessions)
        /\ ~ In x sessions)
  /\ (exists t', deleted = Some t'
        /\ rows t' = filter (fun r => negb (in_session x r)) (rows t))
  /\ serve (DeleteSession x) deleted = (ok SuccessPayload, deleted).
Proof.
  intros now x t Hx created deleted.
  assert (Hf : falsy (Some x) = false).
  { simpl. now apply String.eqb_neq. }
  assert (Hcreated : created = Some (snd (insert_row now x assistant "" t))).
  { unfold created. simpl. unfold post_sessions. now rewrite Hf. }
  assert (Hdeleted : deleted
            = Some (delete_rows x (snd (insert_row now x assistant "" t)))).
  { unfold deleted. now rewrite Hcreated. }
  split.
  { simpl. unfold post_sessions. now rewrite Hf. }
  split.
  { rewrite Hcreated. eexists. split; [reflexivity|].
    apply select_sessions_In.
    exists (mkRow (next_rowid t) x assistant "" now). split; [|reflexivity].
    simpl. apply in_or_app. right. now left. }
  split.
  { rewrite Hcreated. eexists. split; [reflexivity|].
    change (mkMessage (Some (next_rowid t)) x assistant "" (Some now))
      with (message_of_row (mkRow (next_rowid t) x assistant "" now)).
    apply in_map.
    apply (Permutation_in _ (Permutation_sym (select_history_perm E _ _))).
    simpl. rewrite filter_app. simpl. rewrite in_session_refl.
    apply in_or_app. right. now left. }
  split; [now rewrite Hcreated|].
  split.
  { rewrite Hdeleted. simpl.
    unfold get_history, getConversationHistory, select_history. simpl.
    now rewrite filter_negb_in_session, engine_nil. }
  split.
  { rewrite Hdeleted. eexists. split; [reflexivity|].
    rewrite select_sessions_In. intros (r & Hr & Hs).
    simpl in Hr. apply filter_In in Hr. destruct Hr as [_ Hr].
    apply in_session_iff in Hs. rewrite Hs in Hr. discriminate. }
  split.
  { rewrite Hdeleted. eexists. split; [reflexivity|].
    simpl. rewrite filter_app. simpl. rewrite in_session_refl. simpl.
    now rewrite app_nil_r. }
  rewrite Hdeleted. simpl. unfold delete_session, deleteSession, delete_rows.
  simpl. now rewrite filter_negb_idem.
Qed.

(** X11, witness: session "s2" next to "s1". *)
Lemma session_lifecycle_over_http_witness :
  fst (serve (E := stable_engine) (GetHistory "s2")
         (snd (serve (E := stable_engine) (DeleteSession "s2")
                 (snd (serve (E := stable_engine)
                         (PostSessions "2024-01-01 12:00:09" (Some "s2"))
                         (Some tied_table))))))
  = ok (HistoryPayload []).
Proof.
  apply (session_lifecycle_over_http stable_engine "2024-01-01 12:00:09"
           "s2" tied_table).
  discriminate.
Defined.

End RouteExtras.

(** ** More on the chat endpoint *)

Module ChatExtras.
Import Database DatabaseFacts Json Server Requests LogOrder Tables.
Import StoreFacts ServerFacts LogFacts Scenarios.
Local Open Scope list_scope.

Ltac each_event :=
  unfold sse_headers, error_reply;
  repeat first
    [ apply Forall_nil
    | apply Forall_cons;
      [repeat split; first [reflexivity | discriminate] |]
    | apply Forall_app; split
    | apply relay_events_Forall; intros;
      repeat split; first [reflexivity | discriminate] ].

Lemma never_in {A} (x : A) l : Forall (fun e => e <> x) l -> ~ In x l.
Proof. rewrite Forall_forall. intros F Hin. exact (F x Hin eq_refl). Qed.

Lemma content_event_not_done c : content_event c <> done_event.
Proof.
  rewrite SseFacts.content_event_text, SseFacts.done_event_text.
  simpl. intros H. inversion H.
Qed.

Lemma after_reply_is_insert now_user now_reply body t answer :
  after_reply now_user now_reply body t answer
  = snd (insert_row now_reply (session_of body) assistant answer
                    (after_user now_user body t)).
Proof.
  unfold after_reply, insert_row. simpl. now rewrite <- app_assoc.
Qed.

Lemma model_called_with_transcript (E : SqlEngine) chatModel now_user
    now_reply body t :
  falsy (body_message body) = false ->
  In (model_call body (transcript E now_user body t))
     (snd (handle chatModel now_user now_reply body (Some t))).
Proof.
  intros Hf. unfold model_call.
  destruct (body_streaming body) as [[|]|] eqn:Hs.
  - rewrite (handle_streaming E) by assumption. cbv zeta.
    destruct (stream chatModel (transcript E now_user body t))
      as [|chunks [|]]; cbn [snd]; unfold sse_headers; simpl; auto 10.
  - rewrite (handle_buffered E) by congruence. cbv zeta.
    destruct (invoke chatModel (transcript E now_user body t));
      cbn [snd]; simpl; auto.
  - rewrite (handle_buffered E) by congruence. cbv zeta.
    destruct (invoke chatModel (transcript E now_user body t));
      cbn [snd]; simpl; auto.
Qed.

(** X12: a stream that fails.  When the stream of a streaming request
    throws after yielding [chunks] (or the call rejects before any chunk,
    [chunks] being empty), the handler has written exactly one content
    event per chunk received, in order; it writes no done event and never
    ends the response; it stores no assistant turn, not even the partial
    text: the store is the initial one plus the user row; and its last
    three calls are those of the catch block. *)
Theorem failed_stream_keeps_partial_output (E : SqlEngine) :
  forall chatModel now_user now_reply body t chunks,
    falsy (body_message body) = false ->
    body_streaming body = Some true ->
    (stream chatModel (transcript E now_user body t)
     = StreamYields chunks StreamFails
     \/ (stream chatModel (transcript E now_user body t) = StreamRejects
         /\ chunks = [])) ->
    exists t' before,
      handle chatModel now_user now_reply body (Some t)
      = (Some t', before ++ error_reply)
      /\ rows t' = rows t ++ [user_row now_user body t]
      /\ writes (before ++ error_reply) = map content_event chunks
      /\ ~ In done_event (writes (before ++ error_reply))
      /\ ~ In ResEnd (before ++ error_reply)
      /\ Forall (fun e => assistant_saved e = false) (before ++ error_reply).
Proof.
  intros chatModel now_user now_reply body t chunks Hf Hs Hfail.
  rewrite (handle_streaming E) by assumption. cbv zeta.
  exists (after_user now_user body t).
  exists ([Saved (user_turn body t); HistoryRead (session_of body)]
          ++ sse_headers ++ [ModelStream (transcript E now_user body t)]
          ++ relay_events chunks ++ [ModelFailed]).
  assert (Hw : writes
                 (([Saved (user_turn body t); HistoryRead (session_of body)]
                   ++ sse_headers
                   ++ [ModelStream (transcript E now_user body t)]
                   ++ relay_events chunks ++ [ModelFailed]) ++ error_reply)
               = map content_event chunks).
  { unfold sse_headers, error_reply.
    rewrite !writes_app, writes_relay_events. simpl.
    now rewrite !app_nil_r. }
  split.
  { destruct Hfail as [-> | [-> ->]]; simpl; now rewrite <- ?app_assoc. }
  split; [reflexivity|]. split; [exact Hw|]. split; [|split].
  - rewrite Hw. intros Hin. apply in_map_iff in Hin.
    destruct Hin as (c & Hc & _). now apply content_event_not_done in Hc.
  - apply never_in. each_event.
  - each_event.
Qed.

(** X12, witness: the failing model on session "s1". *)
Lemma failed_stream_keeps_partial_output_witness :
  exists t' log,
    handle (E := stable_engine) failing_model
           "2024-01-01 12:00:01" "2024-01-01 12:00:02"
           (mkChatBody (Some "hi") (Some "s1") (Some true))
           (Some tied_table) = (Some t', log)
    /\ writes log = [content_event "hel"]
    /\ rows t'
       = rows tied_table ++ [mkRow 3 "s1" user "hi" "2024-01-01 12:00:01"].
Proof.
  destruct (failed_stream_keeps_partial_output stable_engine failing_model
              "2024-01-01 12:00:01" "2024-01-01 12:00:02"
              (mkChatBody (Some "hi") (Some "s1") (Some true)) tied_table
              ["hel"])
    as (t' & before & Hrun & Hrows & Hw & _);
    [reflexivity | reflexivity | left; reflexivity |].
  exists t', (before ++ error_reply). repeat split; assumption.
Defined.

(** X13: the two modes store the same.  For two requests that differ only
    in the [streaming] flag, when the stream yields chunks whose
    concatenation is the text [invoke] returns, the streaming run and the
    buffered run leave the same store. *)
Theorem modes_store_the_same (E : SqlEngine) :
  forall chatModel now_user now_reply message sessionId flag t chunks,
    falsy message = false ->
    flag <> Some true ->
    stream chatModel
           (transcript E now_user (mkChatBody message sessionId (Some true)) t)
    = StreamYields chunks StreamCompletes ->
    invoke chatModel
           (transcript E now_user (mkChatBody message sessionId flag) t)
    = InvokeReturns (concat_all chunks) ->
    fst (handle chatModel now_user now_reply
                (mkChatBody message sessionId (Some true)) (Some t))
    = fst (handle chatModel now_user now_reply
                  (mkChatBody message sessionId flag) (Some t)).
Proof.
  intros chatModel now_user now_reply message sessionId flag t chunks
         Hf Hflag Hstream Hinvoke.
  rewrite (handle_streaming E) by (assumption || reflexivity).
  rewrite (handle_buffered E _ _ _ (mkChatBody message sessionId flag))
    by assumption.
  cbv zeta. rewrite Hstream, Hinvoke. reflexivity.
Qed.

(** X13, witness: "hi" to the scripted model, streamed and not. *)
Lemma modes_store_the_same_witness :
  fst (handle (E := stable_engine) scripted_model
              "2024-01-01 12:00:01" "2024-01-01 12:00:02"
              (mkChatBody (Some "hi") (Some "s1") (Some true))
              (Some tied_table))
  = fst (handle (E := stable_engine) scripted_model
                "2024-01-01 12:00:01" "2024-01-01 12:00:02"
                (mkChatBody (Some "hi") (Some "s1") (Some false))
                (Some tied_table)).
Proof.
  apply (modes_store_the_same stable_engine scripted_model
           "2024-01-01 12:00:01" "2024-01-01 12:00:02"
           (Some "hi") (Some "s1") (Some false) tied_table ["hel"; "lo"]);
    [reflexivity | discriminate | reflexivity | reflexivity].
Defined.

Lemma store_after_answer (E : SqlEngine) chatModel now_user now_reply body t
    answer :
  falsy (body_message body) = false ->
  answered chatModel body (transcript E now_user body t) answer ->
  fst (handle chatModel now_user now_reply body (Some t))
  = Some (after_reply now_user now_reply body t answer).
Proof.
  intros Hf Ha. unfold answered in Ha.
  destruct (body_streaming body) as [[|]|] eqn:Hs.
  - destruct Ha as (chunks & Hstream & ->).
    rewrite (handle_streaming E) by assumption. cbv zeta.
    now rewrite Hstream.
  - rewrite (handle_buffered E) by congruence. cbv zeta. now rewrite Ha.
  - rewrite (handle_buffered E) by congruence. cbv zeta. now rewrite Ha.
Qed.

Lemma history_after_user (E : SqlEngine) now_user body t :
  chronological (session_of body) t ->
  later_than_session now_user (session_of body) t ->
  select_history (session_of body) (after_user now_user body t)
  = filter (in_session (session_of body)) (rows t)
    ++ [user_row now_user body t].
Proof.
  intros C L. unfold select_history.
  assert (Hrows : filter (in_session (session_of body))
                         (rows (after_user now_user body t))
                  = filter (in_session (session_of body)) (rows t)
                    ++ [user_row now_user body t]).
  { simpl. rewrite filter_app. simpl. unfold user_row at 1.
    now rewrite in_session_refl. }
  rewrite Hrows. apply order_by_chronological.
  apply StronglySorted_snoc; assumption.
Qed.

(** X14: the model is given the whole conversation.  When the turns of the
    session are chronological and the clock at the user turn's INSERT reads
    strictly later than all of them, the handler calls the model, under
    every engine, with the history [getConversationHistory] returned
    before the request, each turn under its role, followed by the incoming
    text as a human message. *)
Theorem model_gets_prior_conversation (E : SqlEngine) :
  forall chatModel now_user now_reply body t,
    falsy (body_message body) = false ->
    chronological (session_of body) t ->
    later_than_session now_user (session_of body) t ->
    exists prior,
      getConversationHistory (session_of body) (Some t) = (Ok prior, Some t)
      /\ In (model_call body
               (map to_langchain prior
                ++ [HumanMessage (text (body_message body))]))
            (snd (handle chatModel now_user now_reply body (Some t))).
Proof.
  intros chatModel now_user now_reply body t Hf C L.
  exists (map message_of_row
              (filter (in_session (session_of body)) (rows t))).
  split.
  - unfold getConversationHistory, select_history.
    now rewrite order_by_chronological.
  - assert (Ht : transcript E now_user body t
                 = map to_langchain
                       (map message_of_row
                            (filter (in_session (session_of body)) (rows t)))
                   ++ [HumanMessage (text (body_message body))]).
    { unfold transcript, history_read, langchainMessages, slice_0_m1.
      rewrite history_after_user by assumption.
      rewrite map_app. cbn [map]. now rewrite removelast_last. }
    rewrite <- Ht. now apply model_called_with_transcript.
Qed.

(** X14, witness: a fourth message to "s1" of [steady_table]. *)
Lemma model_gets_prior_conversation_witness :
  exists prior,
    getConversationHistory (E := reversing_engine) "s1"
                           (Some Scenarios.steady_table)
    = (Ok prior, Some Scenarios.steady_table)
    /\ In (ModelInvoke (map to_langchain prior ++ [HumanMessage "more"]))
          (snd (handle (E := reversing_engine) scripted_model
                       "2024-01-01 12:00:07" "2024-01-01 12:00:08"
                       (mkChatBody (Some "more") (Some "s1") None)
                       (Some Scenarios.steady_table))).
Proof.
  apply (model_gets_prior_conversation reversing_engine scripted_model
           "2024-01-01 12:00:07" "2024-01-01 12:00:08"
           (mkChatBody (Some "more") (Some "s1") None)
           Scenarios.steady_table);
    [reflexivity | exact StoreExtras.steady_table_chronological
    | repeat constructor].
Defined.

(** X15: an answered exchange appends two turns.  When the session is
    chronological, the clock at the user turn's INSERT reads strictly later
    than its turns and the clock at the assistant turn's INSERT strictly
    later still, a request the model answers (in either mode) leaves a
    store whose history of that session is, under every engine, the history
    before the request followed by the user turn and then the assistant
    turn carrying the answer; the session is chronological again, with the
    assistant turn's timestamp the latest. *)
Theorem exchange_appends_to_history (E : SqlEngine) :
  forall chatModel now_user now_reply body t answer,
    falsy (body_message body) = false ->
    chronological (session_of body) t ->
    later_than_session now_user (session_of body) t ->
    String.compare now_user now_reply = Lt ->
    answered chatModel body (transcript E now_user body t) answer ->
    exists prior t',
      getConversationHistory (session_of body) (Some t) = (Ok prior, Some t)
      /\ fst (handle chatModel now_user now_reply body (Some t)) = Some t'
      /\ getConversationHistory (session_of body) (Some t')
         = (Ok (prior
                ++ [mkMessage (Some (next_rowid t)) (session_of body) user
                              (text (body_message body)) (Some now_user);
                    mkMessage (Some (next_rowid (after_user now_user body t)))
                              (session_of body) assistant answer
                              (Some now_reply)]),
            Some t')
      /\ (next_rowid t < next_rowid (after_user now_user body t))%Z
      /\ chronological (session_of body) t'
      /\ (forall later, String.compare now_reply later = Lt ->
            later_than_session later (session_of body) t').
Proof.
  intros chatModel now_user now_reply body t answer Hf C L Hclock Ha.
  exists (map message_of_row
              (filter (in_session (session_of body)) (rows t))).
  exists (after_reply now_user now_reply body t answer).
  assert (Hrows : filter (in_session (session_of body))
                    (rows (after_reply now_user now_reply body t answer))
                  = filter (in_session (session_of body)) (rows t)
                    ++ [user_row now_user body t;
                        assistant_row now_user now_reply body t answer]).
  { simpl. rewrite filter_app. simpl.
    unfold user_row at 1, assistant_row at 1.
    now rewrite !in_session_refl. }
  assert (C' : chronological (session_of body)
                 (after_reply now_user now_reply body t answer)).
  { unfold chronological. rewrite Hrows.
    change [user_row now_user body t;
            assistant_row now_user now_reply body t answer]
      with ([user_row now_user body t]
            ++ [assistant_row now_user now_reply body t answer]).
    rewrite app_assoc. apply StronglySorted_snoc.
    - apply StronglySorted_snoc; assumption.
    - apply Forall_app; split.
      + eapply Forall_impl; [|exact L]. intros r Hr.
        unfold stamped_before. simpl.
        eapply StringOrder.lt_trans; [exact Hr | exact Hclock].
      + constructor; [exact Hclock | constructor]. }
  split.
  { unfold getConversationHistory, select_history.
    now rewrite order_by_chronological. }
  split; [now apply (store_after_answer E)|].
  split.
  { unfold getConversationHistory, select_history.
    rewrite order_by_chronological by exact C'.
    rewrite Hrows, map_app. reflexivity. }
  split.
  { exact (next_rowid_grows now_user (session_of body) user
             (text (body_message body)) t). }
  split; [exact C'|].
  intros later Hlater. unfold later_than_session. rewrite Hrows.
  apply Forall_app; split.
  - eapply Forall_impl; [|exact L]. intros r Hr. simpl in Hr.
    eapply StringOrder.lt_trans; [exact Hr|].
    eapply StringOrder.lt_trans; [exact Hclock | exact Hlater].
  - constructor; [|constructor; [exact Hlater | constructor]].
    simpl. eapply StringOrder.lt_trans; [exact Hclock | exact Hlater].
Qed.

(** X15, witness: "more" in session "s1" of [steady_table], answered
    "hello". *)
Lemma exchange_appends_to_history_witness :
  exists prior t',
    getConversationHistory (E := reversing_engine) "s1"
                           (Some Scenarios.steady_table)
    = (Ok prior, Some Scenarios.steady_table)
    /\ fst (handle (E := reversing_engine) scripted_model
                   "2024-01-01 12:00:07" "2024-01-01 12:00:08"
                   (mkChatBody (Some "more") (Some "s1") None)
                   (Some Scenarios.steady_table)) = Some t'
    /\ getConversationHistory (E := reversing_engine) "s1" (Some t')
       = (Ok (prior
              ++ [mkMessage (Some 5%Z) "s1" user "more"
                            (Some "2024-01-01 12:00:07");
                  mkMessage (Some 6%Z) "s1" assistant "hello"
                            (Some "2024-01-01 12:00:08")]),
          Some t').
Proof.
  destruct (exchange_appends_to_history reversing_engine scripted_model
              "2024-01-01 12:00:07" "2024-01-01 12:00:08"
              (mkChatBody (Some "more") (Some "s1") None)
              Scenarios.steady_table "hello")
    as (prior & t' & Hprior & Hrun & Hhist & _);
    [reflexivity | exact StoreExtras.steady_table_chronological
    | repeat constructor | reflexivity | reflexivity |].
  exists prior, t'. repeat split; assumption.
Defined.

Lemma history_unchanged_by_added (E : SqlEngine) sid other t added seq :
  other <> sid ->
  Forall (fun r => row_session_id r = sid) added ->
  select_history other (mkTable (rows t ++ added) seq)
  = select_history other t.
Proof.
  intros Hne F. unfold select_history. simpl. rewrite filter_app.
  rewrite (RouteExtras.filter_none (in_session other) added).
  - now rewrite app_nil_r.
  - intros r Hr. rewrite Forall_forall in F. apply F in Hr.
    destruct (in_session other r) eqn:Hs; [|reflexivity].
    apply in_session_iff in Hs. congruence.
Qed.

(** X16: the handler only ever appends, and only to its own session.
    Whatever the request and whatever the model does, on an open store the
    final table is the initial one followed by at most two new rows, all of
    the request's session and with ids above the AUTOINCREMENT counter of
    the initial table; no row is removed or changed, and the history of
    every other session is what it was.  A store that was never opened
    stays so. *)
Theorem chat_only_appends_to_its_session (E : SqlEngine) :
  forall chatModel now_user now_reply body t,
    (exists t' added,
       fst (handle chatModel now_user now_reply body (Some t)) = Some t'
       /\ rows t' = rows t ++ added
       /\ List.length added <= 2
       /\ Forall (fun r => row_session_id r = session_of body
                           /\ (sqlite_sequence t < row_id r)%Z) added
       /\ (forall other, other <> session_of body ->
             fst (getConversationHistory other (Some t'))
             = fst (getConversationHistory other (Some t))))
    /\ fst (handle chatModel now_user now_reply body None) = None.
Proof.
  intros chatModel now_user now_reply body t.
  assert (Hidle : exists t' added,
             Some t = Some t' /\ rows t' = rows t ++ added
             /\ List.length added <= 2
             /\ Forall (fun r => row_session_id r = session_of body
                                 /\ (sqlite_sequence t < row_id r)%Z) added
             /\ (forall other, other <> session_of body ->
                   fst (getConversationHistory other (Some t'))
                   = fst (getConversationHistory other (Some t)))).
  { exists t, []. rewrite app_nil_r. repeat split; auto. }
  assert (Huser : exists t' added,
             Some (after_user now_user body t) = Some t'
             /\ rows t' = rows t ++ added
             /\ List.length added <= 2
             /\ Forall (fun r => row_session_id r = session_of body
                                 /\ (sqlite_sequence t < row_id r)%Z) added
             /\ (forall other, other <> session_of body ->
                   fst (getConversationHistory other (Some t'))
                   = fst (getConversationHistory other (Some t)))).
  { exists (after_user now_user body t), [user_row now_user body t].
    split; [reflexivity|]. split; [reflexivity|]. split; [simpl; lia|].
    split.
    - constructor; [|constructor]. split; [reflexivity|].
      apply next_rowid_above_sequence.
    - intros other Hne. cbn [getConversationHistory fst]. f_equal. f_equal.
      apply (history_unchanged_by_added E (session_of body)); [exact Hne|].
      now constructor. }
  assert (Hboth : forall answer, exists t' added,
             Some (after_reply now_user now_reply body t answer) = Some t'
             /\ rows t' = rows t ++ added
             /\ List.length added <= 2
             /\ Forall (fun r => row_session_id r = session_of body
                                 /\ (sqlite_sequence t < row_id r)%Z) added
             /\ (forall other, other <> session_of body ->
                   fst (getConversationHistory other (Some t'))
                   = fst (getConversationHistory other (Some t)))).
  { intros answer.
    exists (after_reply now_user now_reply body t answer),
           [user_row now_user body t;
            assistant_row now_user now_reply body t answer].
    split; [reflexivity|]. split; [reflexivity|]. split; [simpl; lia|].
    split.
    - constructor; [|constructor; [|constructor]].
      + split; [reflexivity|]. apply next_rowid_above_sequence.
      + split; [reflexivity|]. simpl.
        pose proof (next_rowid_above_sequence t).
        pose proof (next_rowid_above_sequence (after_user now_user body t))
          as H'. simpl in H'. lia.
    - intros other Hne. cbn [getConversationHistory fst]. f_equal. f_equal.
      apply (history_unchanged_by_added E (session_of body)); [exact Hne|].
      now repeat constructor. }
  split.
  2:{ destruct (falsy (body_message body)) eqn:Hf.
      - now rewrite (handle_invalid E).
      - now rewrite (handle_closed_store E). }
  destruct (falsy (body_message body)) eqn:Hf.
  { rewrite (handle_invalid E) by assumption. exact Hidle. }
  destruct (body_streaming body) as [[|]|] eqn:Hs.
  - rewrite (handle_streaming E) by assumption. cbv zeta.
    destruct (stream chatModel (transcript E now_user body t))
      as [|chunks [|]]; cbn [fst]; auto.
  - rewrite (handle_buffered E) by congruence. cbv zeta.
    destruct (invoke chatModel (transcript E now_user body t));
      cbn [fst]; auto.
  - rewrite (handle_buffered E) by congruence. cbv zeta.
    destruct (invoke chatModel (transcript E now_user body t));
      cbn [fst]; auto.
Qed.

(** X16, witness: a request to "s1" and the history of "s2". *)
Lemma chat_only_appends_to_its_session_witness :
  exists t',
    fst (handle (E := stable_engine) scripted_model
                "2024-01-01 12:00:07" "2024-01-01 12:00:08"
                (mkChatBody (Some "more") (Some "s1") None)
                (Some Scenarios.steady_table)) = Some t'
    /\ fst (getConversationHistory (E := stable_engine) "s2" (Some t'))
       = fst (getConversationHistory (E := stable_engine) "s2"
                (Some Scenarios.steady_table)).
Proof.
  destruct (proj1 (chat_only_appends_to_its_session stable_engine
                     scripted_model
                     "2024-01-01 12:00:07" "2024-01-01 12:00:08"
                     (mkChatBody (Some "more") (Some "s1") None)
                     Scenarios.steady_table))
    as (t' & added & Hrun & _ & _ & _ & Hother).
  exists t'. split; [exact Hrun|]. apply Hother. discriminate.
Defined.

End ChatExtras.

(** ** The event stream, line by line *)

Module LineFacts.
Import Json Server SseClient Client Browsers Lines Requests ServerFacts.
Local Open Scope string_scope.

Lemma no_newline_app : forall a b,
  no_newline (a ++ b) = no_newline a && no_newline b.
Proof.
  induction a as [|c a IH]; intros b; simpl; [reflexivity|].
  now rewrite IH, andb_assoc.
Qed.

Lemma no_newline_escape_char : forall c, no_newline (escape_char c) = true.
Proof.
  intros c. destruct c as [[|] [|] [|] [|] [|] [|] [|] [|]]; reflexivity.
Qed.

Lemma no_newline_escape : forall s, no_newline (escape s) = true.
Proof.
  induction s as [|c s IH]; simpl; [reflexivity|].
  now rewrite no_newline_app, no_newline_escape_char, IH.
Qed.

Lemma no_newline_quote s : no_newline (quote s) = true.
Proof.
  unfold quote. simpl. now rewrite no_newline_app, no_newline_escape.
Qed.

Lemma no_newline_value v : no_newline (stringify_value v) = true.
Proof. destruct v as [s | [|]]; [apply no_newline_quote | |]; reflexivity. Qed.

Lemma no_newline_members : forall o, no_newline (stringify_members o) = true.
Proof.
  induction o as [|[k v] o IH]; [reflexivity|].
  destruct o as [|m o].
  - change (stringify_members [(k, v)])
      with (quote k ++ ":" ++ stringify_value v).
    now rewrite !no_newline_app, no_newline_quote, no_newline_value.
  - change (stringify_members ((k, v) :: m :: o))
      with (quote k ++ ":" ++ stringify_value v ++ ","
            ++ stringify_members (m :: o)).
    now rewrite !no_newline_app, no_newline_quote, no_newline_value, IH.
Qed.

(** The JSON text of a payload holds no line break, whatever its strings
    hold. *)
Lemma no_newline_stringify o : no_newline (stringify o) = true.
Proof.
  unfold stringify. simpl. now rewrite no_newline_app, no_newline_members.
Qed.

Lemma split_lines_line : forall line rest,
  no_newline line = true ->
  split_lines (line ++ String newline rest) = line :: split_lines rest.
Proof.
  induction line as [|c line IH]; intros rest H; simpl in *.
  - reflexivity.
  - apply andb_true_iff in H. destruct H as [Hc Hl].
    apply negb_true_iff in Hc. rewrite Hc. now rewrite IH.
Qed.

Lemma split_lines_event o rest :
  split_lines (sse o ++ rest)
  = ("data: " ++ stringify o) :: "" :: split_lines rest.
Proof.
  unfold sse.
  replace (("data: " ++ stringify o ++ String newline (String newline ""))
           ++ rest)
    with (("data: " ++ stringify o)
          ++ String newline (String newline rest)).
  - rewrite split_lines_line; [reflexivity|].
    simpl. apply no_newline_stringify.
  - simpl. f_equal. f_equal. f_equal. f_equal. f_equal. f_equal.
    now rewrite !append_assoc.
Qed.

Lemma parse_object_stringify k v :
  parse_object (stringify [(k, v)]) = Some [(k, v)].
Proof.
  unfold parse_object, stringify. simpl.
  rewrite !append_assoc. simpl. rewrite SseFacts.parse_escape. simpl.

  destruct v as [s | [|]]; simpl.
  - rewrite !append_assoc. simpl. now rewrite SseFacts.parse_escape.
  - reflexivity.
  - reflexivity.
Qed.

End LineFacts.

(** The browser the examples run in. *)
Definition ascii_browser : Client.Browser :=
  Client.mkBrowser Browsers.parse_object Browsers.ascii_trim
    LineFacts.parse_object_stringify.

(** ** The presentation client *)

Module ClientFacts.
Import Database Json Server SseClient Client Lines Tables Requests LogOrder.
Import Pages ServerFacts LogFacts LineFacts.
Local Open Scope list_scope.

Lemma prefix_data x : String.prefix "data: " ("data: " ++ x) = true.
Proof. simpl. now destruct x. Qed.

Lemma for_lines_content (B : Browser) idx c rest st :
  for_lines idx (split_lines (content_event c ++ rest)) st
  = for_lines idx (split_lines rest) (absorb idx st c).
Proof.
  unfold content_event. rewrite split_lines_event.
  cbn [for_lines]. rewrite prefix_data.
  change (slice 6 ("data: " ++ stringify [("content", JString c)]))
    with (stringify [("content", JString c)]).
  rewrite JSON_parse_stringify.
  change (member "done" [("content", JString c)]) with (@None value).
  change (member "content" [("content", JString c)]) with (Some (JString c)).
  cbn [truthy to_text]. unfold absorb.
  destruct (String.eqb c ""); reflexivity.
Qed.

Lemma for_lines_done (B : Browser) idx rest st :
  for_lines idx (split_lines (done_event ++ rest)) st = (st, false).
Proof.
  unfold done_event. rewrite split_lines_event.
  cbn [for_lines]. rewrite prefix_data.
  change (slice 6 ("data: " ++ stringify [("done", JBool true)]))
    with (stringify [("done", JBool true)]).
  rewrite JSON_parse_stringify. reflexivity.
Qed.

Lemma for_lines_end (B : Browser) idx st :
  for_lines idx (split_lines "") st = (st, false).
Proof. reflexivity. Qed.

Lemma for_lines_contents (B : Browser) idx : forall cs rest st,
  for_lines idx
    (split_lines (concat_all (map content_event cs) ++ rest)%string) st
  = for_lines idx (split_lines rest) (fold_left (absorb idx) cs st).
Proof.
  induction cs as [|c cs IH]; intros rest st; [reflexivity|].
  cbn [map fold_left].
  change (concat_all (content_event c :: map content_event cs))
    with (content_event c ++ concat_all (map content_event cs))%string.
  rewrite append_assoc, for_lines_content. apply IH.
Qed.

Lemma concat_all_app : forall a b,
  concat_all (a ++ b) = (concat_all a ++ concat_all b)%string.
Proof.
  induction a as [|x a IH]; intros b; [reflexivity|].
  change (concat_all ((x :: a) ++ b)) with (x ++ concat_all (a ++ b))%string.
  change (concat_all (x :: a)) with (x ++ concat_all a)%string.
  now rewrite IH, append_assoc.
Qed.

Lemma read_all_idle (B : Browser) idx : forall groups st,
  List.concat groups = [] ->
  read_all idx (map concat_all groups) st = (st, false).
Proof.
  induction groups as [|g groups IH]; intros st H; simpl; [reflexivity|].
  simpl in H. apply app_eq_nil in H. destruct H as [-> H].
  simpl. now apply IH.
Qed.

(** However the events of a drained stream are cut into reads, the reader
    absorbs every chunk, in order, and does not throw. *)
Lemma read_all_events (B : Browser) idx : forall groups chunks st,
  List.concat groups = map content_event chunks ++ [done_event] ->
  read_all idx (map concat_all groups) st
  = (fold_left (absorb idx) chunks st, false).
Proof.
  induction groups as [|g groups IH]; intros chunks st H; simpl in H.
  - now destruct (map content_event chunks).
  - apply app_eq_app in H. destruct H as (l & [[Hg Hl] | [Hm Hc]]).
    + (* the read reaches past the content events *)
      destruct l as [|d l].
      * rewrite app_nil_r in Hg. simpl in Hl. subst g.
        cbn [map read_all].
        rewrite <- (append_nil_r (concat_all (map content_event chunks))).
        rewrite for_lines_contents, for_lines_end.
        rewrite <- (app_nil_r chunks) at 2. rewrite fold_left_app.
        apply (IH [] _). now rewrite Hl.
      * simpl in Hl. inversion Hl as [[Hd Hrest]].
        symmetry in Hrest. apply app_eq_nil in Hrest.
        destruct Hrest as [-> Hgroups]. subst g.
        cbn [map read_all]. rewrite concat_all_app.
        change (concat_all [d]) with (d ++ "")%string. rewrite <- Hd.
        rewrite for_lines_contents, for_lines_done.
        now apply read_all_idle.
    + (* the read holds content events only *)
      apply map_eq_app in Hm.
      destruct Hm as (cs1 & cs2 & -> & Hg & Hl). subst g l.
      cbn [map read_all].
      rewrite <- (append_nil_r (concat_all (map content_event cs1))).
      rewrite for_lines_contents, for_lines_end, fold_left_app.
      now apply IH.
Qed.

Lemma array_set_last m x : forall pre,
  array_set (List.length pre) m (pre ++ [x]) = pre ++ [Some m].
Proof. induction pre as [|y pre IH]; simpl; [reflexivity | now rewrite IH]. Qed.

Lemma absorb_tracked pre st c :
  tracked pre st ->
  tracked pre (absorb (List.length pre) st c)
  /\ assistantMessage (absorb (List.length pre) st c)
     = (assistantMessage st ++ c)%string.
Proof.
  intros T. unfold absorb. destruct (String.eqb_spec c "") as [-> | Hne].
  - split; [exact T | now rewrite append_nil_r].
  - split; [|reflexivity]. unfold tracked in *. simpl.
    rewrite T. apply array_set_last.
Qed.

Lemma absorb_all_tracked pre : forall cs st,
  tracked pre st ->
  tracked pre (fold_left (absorb (List.length pre)) cs st)
  /\ assistantMessage (fold_left (absorb (List.length pre)) cs st)
     = (assistantMessage st ++ concat_all cs)%string.
Proof.
  induction cs as [|c cs IH]; intros st T; simpl.
  - split; [exact T | now rewrite append_nil_r].
  - destruct (absorb_tracked pre st c T) as [T' Ha].
    destruct (IH _ T') as [T'' Ha'].
    split; [exact T''|]. now rewrite Ha', Ha, append_assoc.
Qed.

(** What a drained stream makes the handler write. *)
Lemma writes_of_drained_stream (E : SqlEngine) chatModel now_user now_reply
    body t chunks :
  falsy (body_message body) = false ->
  body_streaming body = Some true ->
  stream chatModel (transcript E now_user body t)
  = StreamYields chunks StreamCompletes ->
  handle chatModel now_user now_reply body (Some t)
  = (Some (after_reply now_user now_reply body t (concat_all chunks)),
     snd (handle chatModel now_user now_reply body (Some t)))
  /\ writes (snd (handle chatModel now_user now_reply body (Some t)))
     = map content_event chunks ++ [done_event].
Proof.
  intros Hf Hs Hstream.
  rewrite (handle_streaming E) by assumption. cbv zeta. rewrite Hstream.
  split; [reflexivity|]. cbn [snd]. unfold sse_headers.
  rewrite !writes_app, writes_relay_events. reflexivity.
Qed.

Lemma streaming_view (B : Browser) groups chunks rendered shownNow :
  List.concat groups = map content_event chunks ++ [done_event] ->
  List.length shownNow = List.length rendered + 1 ->
  handleStreamingResponse (StreamedBody (Some (map concat_all groups)))
    rendered shownNow
  = (shownNow ++ [reply_message (Some (JString (concat_all chunks)))], None).
Proof.
  intros Hg Hlen. unfold handleStreamingResponse.
  rewrite (read_all_events B _ groups chunks _ Hg), <- Hlen.
  destruct (absorb_all_tracked shownNow chunks
              (mkStreaming ""
                 (shownNow ++ [Some (mkUi None assistant (Some (JString "")))]))
              eq_refl) as [T Ha].
  rewrite T, Ha. reflexivity.
Qed.

Lemma sent_length (B : Browser) (ui : Ui) :
  List.length (messages ui ++ [sent_message ui])
  = List.length (messages ui) + 1.
Proof. now rewrite length_app. Qed.

Lemma submit_runs (B : Browser) streamedReply bufferedReply ui :
  trim (input ui) <> "" ->
  isLoading ui = false ->
  handleSubmit streamedReply bufferedReply ui
  = let '(shownAfter, thrown) :=
      if streamingEnabled ui
      then handleStreamingResponse streamedReply (messages ui)
             (messages ui ++ [sent_message ui])
      else handleNonStreamingResponse bufferedReply
             (messages ui ++ [sent_message ui]) in
    match thrown with
    | None =>
        mkSubmitted
          (mkUiState shownAfter "" false (currentSessionId ui) (sessions ui)
                     (streamingEnabled ui))
          (negb (includes (sessions ui) (currentSessionId ui)))
    | Some _ =>
        mkSubmitted
          (mkUiState (shownAfter ++ [reply_message (Some (JString SORRY))])
                     "" false (currentSessionId ui) (sessions ui)
                     (streamingEnabled ui))
          false
    end.
Proof.
  intros Hne Hload. unfold handleSubmit.
  rewrite (proj2 (String.eqb_neq _ _) Hne), Hload. reflexivity.
Qed.

Lemma request_is_valid (B : Browser) ui :
  trim (input ui) <> "" -> falsy (body_message (request_body ui)) = false.
Proof. intros H. simpl. now apply String.eqb_neq. Qed.

Lemma split_lines_plain : forall s,
  no_newline s = true -> split_lines s = [s].
Proof.
  induction s as [|c s IH]; simpl; [reflexivity|].
  intros H. apply andb_true_iff in H. destruct H as [Hc Hs].
  apply negb_true_iff in Hc. rewrite Hc, (IH Hs). reflexivity.
Qed.

Lemma replies_app a b : replies (a ++ b) = replies a ++ replies b.
Proof. unfold replies. apply flat_map_app. Qed.

Lemma filter_all_out {A} (f : A -> bool) : forall l,
  Forall (fun x => f x = false) l -> filter f l = [].
Proof.
  induction l as [|x l IH]; intros F; [reflexivity|].
  inversion F as [|? ? Hx Hl]; subst. simpl. rewrite Hx. now apply IH.
Qed.


(** The store a valid request leaves: the user turn is in it, and the
    assistant turn when the model answered. *)
Lemma handled_store (E : SqlEngine) chatModel now_user now_reply body t :
  falsy (body_message body) = false ->
  fst (handle chatModel now_user now_reply body (Some t))
  = Some (after_user now_user body t)
  \/ exists answer,
       fst (handle chatModel now_user now_reply body (Some t))
       = Some (after_reply now_user now_reply body t answer).
Proof.
  intros Hf. destruct (body_streaming body) as [[|]|] eqn:Hs.
  - rewrite (handle_streaming E) by assumption. cbv zeta.
    destruct (stream chatModel (transcript E now_user body t))
      as [|chunks [|]]; cbn [fst]; eauto.
  - rewrite (handle_buffered E) by congruence. cbv zeta.
    destruct (invoke chatModel (transcript E now_user body t));
      cbn [fst]; eauto.
  - rewrite (handle_buffered E) by congruence. cbv zeta.
    destruct (invoke chatModel (transcript E now_user body t));
      cbn [fst]; eauto.
Qed.


Lemma includes_In l s : includes l s = true <-> In s l.
Proof.
  unfold includes. rewrite existsb_exists. split.
  - intros (x & Hx & Heq). apply String.eqb_eq in Heq. now subst.
  - intros H. exists s. split; [exact H | apply String.eqb_refl].
Qed.

End ClientFacts.

Module ClientExtras.
Import Database Json Server Routes SseClient Client Lines Tables Requests.
Import LogOrder Scenarios Pages.
Import ServerFacts LogFacts LineFacts ClientFacts.
Local Open Scope list_scope.

(** *** The stream, line by line *)

(** X17: the events of a stream are whole lines.  Whatever the chunks
    hold, line breaks and quotes included, the text of their content
    events splits at line breaks into, for each chunk in turn, one line
    ["data: "] followed by the JSON of the chunk and one empty line, and an
    empty string after the last break; none of the data lines holds a line
    break. *)
Theorem events_split_into_lines : forall chunks,
  split_lines (concat_all (map content_event chunks))
  = flat_map
      (fun c => [("data: " ++ stringify [("content", JString c)])%string; ""])
      chunks
    ++ [""]
  /\ Forall (fun c => no_newline (stringify [("content", JString c)]) = true)
            chunks.
Proof.
  intros chunks. split.
  - induction chunks as [|c chunks IH]; [reflexivity|].
    cbn [map flat_map].
    change (concat_all (content_event c :: map content_event chunks))
      with (content_event c ++ concat_all (map content_event chunks))%string.
    unfold content_event at 1. rewrite split_lines_event, IH. reflexivity.
  - apply Forall_forall. intros c _. apply no_newline_stringify.
Qed.

(** X18: the page shows the text the stream carried.  When the reads of
    the response body are the content events of [chunks] followed by the
    closing event, cut between events into any number of reads of any
    sizes, and the array holds one message more than the render the
    handler closed over, [handleStreamingResponse] throws nothing and leaves
    the array with one assistant message appended whose content is the
    chunks put end to end. *)
Theorem client_shows_streamed_text (B : Browser) :
  forall groups chunks rendered shownNow,
    List.concat groups = map content_event chunks ++ [done_event] ->
    List.length shownNow = List.length rendered + 1 ->
    handleStreamingResponse (StreamedBody (Some (map concat_all groups)))
      rendered shownNow
    = (shownNow ++ [Some (mkUi None assistant
                            (Some (JString (concat_all chunks))))],
       None).
Proof. intros. now apply streaming_view. Qed.

(** X18, witness: "hel" in a first read, "lo" and the closing event in a
    second. *)
Lemma client_shows_streamed_text_witness :
  handleStreamingResponse (B := ascii_browser)
    (StreamedBody
       (Some (map concat_all
                [[content_event "hel"]; [content_event "lo"; done_event]])))
    [] [Some (mkUi None user (Some (JString "hi")))]
  = ([Some (mkUi None user (Some (JString "hi")))]
     ++ [Some (mkUi None assistant (Some (JString (concat_all ["hel"; "lo"]))))],
     None).
Proof.
  apply (client_shows_streamed_text ascii_browser
           [[content_event "hel"]; [content_event "lo"; done_event]]
           ["hel"; "lo"] [] [Some (mkUi None user (Some (JString "hi")))]);
    reflexivity.
Defined.

(** X19: a streamed exchange, end to end.  The page holds a text that is
    not blank, is not loading and has streaming enabled; the store is open
    and the model's stream ends normally.  When the reads of the response
    are what the handler wrote, cut between writes in any way,
    [handleSubmit] leaves the messages it had followed by the trimmed text
    as a user message and by an assistant message whose content is the
    content of the assistant turn the handler stored; the input is
    cleared, loading is over, and [fetchSessions] is called exactly when
    the current session was not listed. *)
Theorem page_shows_streamed_answer (E : SqlEngine) (B : Browser) :
  forall chatModel now_user now_reply ui t chunks groups anyBuffered,
    trim (input ui) <> "" ->
    isLoading ui = false ->
    streamingEnabled ui = true ->
    stream chatModel (transcript E now_user (request_body ui) t)
    = StreamYields chunks StreamCompletes ->
    List.concat groups
    = writes (snd (handle chatModel now_user now_reply (request_body ui)
                          (Some t))) ->
    exists stored,
      fst (handle chatModel now_user now_reply (request_body ui) (Some t))
      = Some (mkTable
                (rows t
                 ++ [mkRow (next_rowid t) (currentSessionId ui) user
                           (trim (input ui)) now_user;
                     stored])
                (row_id stored))
      /\ row_role stored = assistant
      /\ row_session_id stored = currentSessionId ui
      /\ handleSubmit (StreamedBody (Some (map concat_all groups)))
                      anyBuffered ui
         = mkSubmitted
             (mkUiState
                (messages ui
                 ++ [Some (mkUi None user (Some (JString (trim (input ui)))));
                     Some (mkUi None assistant
                             (Some (JString (row_content stored))))])
                "" false (currentSessionId ui) (sessions ui) true)
             (negb (includes (sessions ui) (currentSessionId ui))).
Proof.
  intros chatModel now_user now_reply ui t chunks groups anyBuffered
         Hne Hload Hs Hstream Hg.
  destruct (writes_of_drained_stream E chatModel now_user now_reply
              (request_body ui) t chunks
              (request_is_valid B ui Hne)
              (f_equal Some Hs) Hstream) as [Hrun Hw].
  rewrite Hw in Hg.
  exists (assistant_row now_user now_reply (request_body ui) t
                        (concat_all chunks)).
  split; [now rewrite Hrun|].
  split; [reflexivity|]. split; [reflexivity|].
  rewrite (submit_runs B _ _ ui Hne Hload), Hs.
  rewrite (streaming_view B groups chunks (messages ui) _ Hg (sent_length B ui)).
  unfold sent_message, reply_message. rewrite <- app_assoc. reflexivity.
Qed.

(** X19, witness: " hi " typed in session "s1", answered "hel", "lo" in
    two reads. *)
Lemma page_shows_streamed_answer_witness :
  let ui := mkUiState [] " hi " false "s1" ["s1"] true in
  exists stored,
    fst (handle (E := stable_engine) scripted_model
                "2024-01-01 12:00:01" "2024-01-01 12:00:02"
                (request_body (B := ascii_browser) ui) (Some tied_table))
    = Some (mkTable
              (rows tied_table
               ++ [mkRow (next_rowid tied_table) "s1" user "hi"
                         "2024-01-01 12:00:01";
                   stored])
              (row_id stored))
    /\ row_role stored = assistant
    /\ row_session_id stored = "s1"
    /\ handleSubmit (B := ascii_browser)
         (StreamedBody
            (Some (map concat_all
                     [[content_event "hel"];
                      [content_event "lo"; done_event]])))
         BufferedRejects ui
       = mkSubmitted
           (mkUiState
              [Some (mkUi None user (Some (JString "hi")));
               Some (mkUi None assistant
                       (Some (JString (row_content stored))))]
              "" false "s1" ["s1"] true)
           false.
Proof.
  apply (page_shows_streamed_answer stable_engine ascii_browser
           scripted_model "2024-01-01 12:00:01" "2024-01-01 12:00:02"
           (mkUiState [] " hi " false "s1" ["s1"] true) tied_table
           ["hel"; "lo"]
           [[content_event "hel"]; [content_event "lo"; done_event]]
           BufferedRejects);
    [discriminate | reflexivity | reflexivity | reflexivity | reflexivity].
Defined.

(** X20: a read that ends inside an event.  The page streams; a read
    holds some whole content events and then the beginning of a line
    ["data: ..."] whose text so far the browser's [JSON.parse] rejects.
    [handleSubmit] then leaves the messages it had, the user message, an
    assistant message with the text of the whole events, and the apology
    as a further assistant message; the reads that follow are not looked
    at and [fetchSessions] is not called. *)
Theorem cut_event_ends_the_reading (B : Browser) :
  forall cut chunks reads anyBuffered ui,
    trim (input ui) <> "" ->
    isLoading ui = false ->
    streamingEnabled ui = true ->
    String.prefix "data: " cut = true ->
    no_newline cut = true ->
    JSON_parse (slice 6 cut) = None ->
    handleSubmit
      (StreamedBody
         (Some ((concat_all (map content_event chunks) ++ cut)%string
                :: reads)))
      anyBuffered ui
    = mkSubmitted
        (mkUiState
           (messages ui
            ++ [Some (mkUi None user (Some (JString (trim (input ui)))));
                Some (mkUi None assistant
                        (Some (JString (concat_all chunks))));
                Some (mkUi None assistant (Some (JString SORRY)))])
           "" false (currentSessionId ui) (sessions ui) true)
        false.
Proof.
  intros cut chunks reads anyBuffered ui Hne Hload Hs Hp Hn Hparse.
  rewrite (submit_runs B _ _ ui Hne Hload), Hs.
  unfold handleStreamingResponse. cbn [read_all].
  rewrite for_lines_contents, (split_lines_plain cut Hn).
  cbn [for_lines]. rewrite Hp, Hparse.
  rewrite <- (sent_length B ui).
  destruct (absorb_all_tracked (messages ui ++ [sent_message ui]) chunks
              (mkStreaming ""
                 ((messages ui ++ [sent_message ui])
                  ++ [Some (mkUi None assistant (Some (JString "")))]))
              eq_refl) as [T Ha].
  unfold tracked in T. rewrite T, Ha.
  unfold sent_message, reply_message. rewrite <- !app_assoc. reflexivity.
Qed.

(** X20, witness: the read ends right after the opening brace of the
    second event. *)
Lemma cut_event_ends_the_reading_witness :
  handleSubmit (B := ascii_browser)
    (StreamedBody
       (Some ((concat_all (map content_event ["hel"]) ++ "data: {")%string
              :: [])))
    BufferedRejects (mkUiState [] "hi" false "s1" ["s1"] true)
  = mkSubmitted
      (mkUiState
         ([] ++ [Some (mkUi None user (Some (JString "hi")));
                 Some (mkUi None assistant
                         (Some (JString (concat_all ["hel"]))));
                 Some (mkUi None assistant (Some (JString SORRY)))])
         "" false "s1" ["s1"] true)
      false.
Proof.
  apply (cut_event_ends_the_reading ascii_browser "data: {" ["hel"] []
           BufferedRejects (mkUiState [] "hi" false "s1" ["s1"] true));
    [discriminate | reflexivity | reflexivity | reflexivity | reflexivity
    | reflexivity].
Defined.

(** *** Buffered exchanges *)

(** X21: a buffered exchange, end to end.  The page holds a text that is
    not blank, is not loading and has streaming disabled; the store is
    open and the model returns [answer].  The handler hands exactly one
    object to [res.json]; when the body of the response is the JSON of
    that object, [handleSubmit] leaves the messages it had followed by the
    trimmed text as a user message and by an assistant message whose
    content is [answer], which is also the content of the assistant turn
    the handler stored. *)
Theorem page_shows_buffered_answer (E : SqlEngine) (B : Browser) :
  forall chatModel now_user now_reply ui t answer anyStreamed,
    trim (input ui) <> "" ->
    isLoading ui = false ->
    streamingEnabled ui = false ->
    invoke chatModel (transcript E now_user (request_body ui) t)
    = InvokeReturns answer ->
    exists o,
      replies (snd (handle chatModel now_user now_reply (request_body ui)
                           (Some t))) = [o]
      /\ fst (handle chatModel now_user now_reply (request_body ui) (Some t))
         = Some (mkTable
                   (rows t
                    ++ [mkRow (next_rowid t) (currentSessionId ui) user
                              (trim (input ui)) now_user;
                        mkRow (next_rowid (after_user now_user
                                             (request_body ui) t))
                              (currentSessionId ui) assistant answer
                              now_reply])
                   (next_rowid (after_user now_user (request_body ui) t)))
      /\ handleSubmit anyStreamed (BufferedBody (stringify o)) ui
         = mkSubmitted
             (mkUiState
                (messages ui
                 ++ [Some (mkUi None user (Some (JString (trim (input ui)))));
                     Some (mkUi None assistant (Some (JString answer)))])
                "" false (currentSessionId ui) (sessions ui) false)
             (negb (includes (sessions ui) (currentSessionId ui))).
Proof.
  intros chatModel now_user now_reply ui t answer anyStreamed
         Hne Hload Hs Hinvoke.
  assert (Hmode : body_streaming (request_body ui) <> Some true).
  { simpl. rewrite Hs. discriminate. }
  exists [("message", JString answer)].
  rewrite (handle_buffered E _ _ _ _ _ (request_is_valid B ui Hne) Hmode).
  cbv zeta. rewrite Hinvoke.
  split; [reflexivity|]. split; [reflexivity|].
  rewrite (submit_runs B _ _ ui Hne Hload), Hs.
  unfold handleNonStreamingResponse. rewrite JSON_parse_stringify.
  unfold sent_message. rewrite <- app_assoc. reflexivity.
Qed.

(** X21, witness: " hi " typed in session "s1", answered "hello". *)
Lemma page_shows_buffered_answer_witness :
  let ui := mkUiState [] " hi " false "s1" ["s1"] false in
  exists o,
    replies (snd (handle (E := stable_engine) scripted_model
                         "2024-01-01 12:00:01" "2024-01-01 12:00:02"
                         (request_body (B := ascii_browser) ui)
                         (Some tied_table))) = [o]
    /\ handleSubmit (B := ascii_browser) StreamedRejects
                    (BufferedBody (stringify o)) ui
       = mkSubmitted
           (mkUiState
              [Some (mkUi None user (Some (JString "hi")));
               Some (mkUi None assistant (Some (JString "hello")))]
              "" false "s1" ["s1"] false)
           false.
Proof.
  destruct (page_shows_buffered_answer stable_engine ascii_browser
              scripted_model "2024-01-01 12:00:01" "2024-01-01 12:00:02"
              (mkUiState [] " hi " false "s1" ["s1"] false) tied_table
              "hello" StreamedRejects)
    as (o & Ho & _ & Hpage);
    [discriminate | reflexivity | reflexivity | reflexivity |].
  exists o. split; [exact Ho | exact Hpage].
Defined.

(** X22: a failed buffered exchange shows no apology.  The page holds a
    text that is not blank, is not loading and has streaming disabled.
    Whenever the handler answers with status 500 (the store is closed or
    the model's call rejects) it hands exactly one object to [res.json],
    and when the body of the response is the JSON of that object
    [handleSubmit] throws nothing: it appends the user message and an
    assistant message whose content is undefined, not the apology. *)
Theorem failed_buffered_exchange_shows_blank (E : SqlEngine) (B : Browser) :
  forall chatModel now_user now_reply ui store anyStreamed,
    trim (input ui) <> "" ->
    isLoading ui = false ->
    streamingEnabled ui = false ->
    In (ResStatus 500)
       (snd (handle chatModel now_user now_reply (request_body ui) store)) ->
    exists o,
      replies (snd (handle chatModel now_user now_reply (request_body ui)
                           store)) = [o]
      /\ handleSubmit anyStreamed (BufferedBody (stringify o)) ui
         = mkSubmitted
             (mkUiState
                (messages ui
                 ++ [Some (mkUi None user (Some (JString (trim (input ui)))));
                     Some (mkUi None assistant None)])
                "" false (currentSessionId ui) (sessions ui) false)
             (negb (includes (sessions ui) (currentSessionId ui))).
Proof.
  intros chatModel now_user now_reply ui store anyStreamed
         Hne Hload Hs H500.
  assert (Hmode : body_streaming (request_body ui) <> Some true).
  { simpl. rewrite Hs. discriminate. }
  assert (Hpage :
    handleSubmit anyStreamed
      (BufferedBody (stringify [("error", JString "Internal server error")]))
      ui
    = mkSubmitted
        (mkUiState
           (messages ui
            ++ [Some (mkUi None user (Some (JString (trim (input ui)))));
                Some (mkUi None assistant None)])
           "" false (currentSessionId ui) (sessions ui) false)
        (negb (includes (sessions ui) (currentSessionId ui)))).
  { rewrite (submit_runs B _ _ ui Hne Hload), Hs.
    unfold handleNonStreamingResponse. rewrite JSON_parse_stringify.
    unfold sent_message. rewrite <- app_assoc. reflexivity. }
  exists [("error", JString "Internal server error")].
  split; [|exact Hpage].
  destruct store as [t|].
  - revert H500.
    rewrite (handle_buffered E _ _ _ _ _ (request_is_valid B ui Hne) Hmode).
    cbv zeta.
    destruct (invoke chatModel (transcript E now_user (request_body ui) t)).
    + intros H500. exfalso. simpl in H500.
      repeat (destruct H500 as [H500 | H500]; [discriminate H500|]).
      exact H500.
    + reflexivity.
  - now rewrite (handle_closed_store E _ _ _ _ (request_is_valid B ui Hne)).
Qed.

(** X22, witness: the model's call rejects. *)
Lemma failed_buffered_exchange_shows_blank_witness :
  let ui := mkUiState [] "hi" false "s1" ["s1"] false in
  exists o,
    replies (snd (handle (E := stable_engine) failing_model
                         "2024-01-01 12:00:01" "2024-01-01 12:00:02"
                         (request_body (B := ascii_browser) ui)
                         (Some tied_table))) = [o]
    /\ handleSubmit (B := ascii_browser) StreamedRejects
                    (BufferedBody (stringify o)) ui
       = mkSubmitted
           (mkUiState
              ([] ++ [Some (mkUi None user (Some (JString "hi")));
                      Some (mkUi None assistant None)])
              "" false "s1" ["s1"] false)
           false.
Proof.
  apply (failed_buffered_exchange_shows_blank stable_engine ascii_browser
           failing_model "2024-01-01 12:00:01" "2024-01-01 12:00:02"
           (mkUiState [] "hi" false "s1" ["s1"] false) (Some tied_table)
           StreamedRejects);
    [discriminate | reflexivity | reflexivity
    | simpl; right; right; right; right; right; left; reflexivity].
Defined.

(** X23: a streamed request that fails before anything is written.  The
    page holds a text that is not blank, is not loading and has streaming
    enabled.  When the handler answers with status 500 having written no
    event, it hands exactly one object to [res.json]; when the JSON of
    that object arrives as the one read of the body, [handleSubmit] throws
    nothing and appends the user message and an assistant message whose
    content is the empty string, not the apology. *)
Theorem failed_streamed_exchange_shows_empty (E : SqlEngine) (B : Browser) :
  forall chatModel now_user now_reply ui store anyBuffered,
    trim (input ui) <> "" ->
    isLoading ui = false ->
    streamingEnabled ui = true ->
    In (ResStatus 500)
       (snd (handle chatModel now_user now_reply (request_body ui) store)) ->
    writes (snd (handle chatModel now_user now_reply (request_body ui) store))
    = [] ->
    exists o,
      replies (snd (handle chatModel now_user now_reply (request_body ui)
                           store)) = [o]
      /\ handleSubmit (StreamedBody (Some [stringify o])) anyBuffered ui
         = mkSubmitted
             (mkUiState
                (messages ui
                 ++ [Some (mkUi None user (Some (JString (trim (input ui)))));
                     Some (mkUi None assistant (Some (JString "")))])
                "" false (currentSessionId ui) (sessions ui) true)
             (negb (includes (sessions ui) (currentSessionId ui))).
Proof.
  intros chatModel now_user now_reply ui store anyBuffered
         Hne Hload Hs H500 Hw.
  assert (Hpage :
    handleSubmit
      (StreamedBody
         (Some [stringify [("error", JString "Internal server error")]]))
      anyBuffered ui
    = mkSubmitted
        (mkUiState
           (messages ui
            ++ [Some (mkUi None user (Some (JString (trim (input ui)))));
                Some (mkUi None assistant (Some (JString "")))])
           "" false (currentSessionId ui) (sessions ui) true)
        (negb (includes (sessions ui) (currentSessionId ui)))).
  { rewrite (submit_runs B _ _ ui Hne Hload), Hs.
    unfold handleStreamingResponse, sent_message. cbn [read_all].
    change (for_lines (List.length (messages ui) + 1)
              (split_lines
                 (stringify [("error", JString "Internal server error")])))
      with (fun st : Streaming => (st, false)).
    cbv beta. cbn [streamed]. rewrite <- app_assoc. reflexivity. }
  exists [("error", JString "Internal server error")].
  split; [|exact Hpage].
  destruct store as [t|].
  - revert H500 Hw.
    rewrite (handle_streaming E _ _ _ _ _ (request_is_valid B ui Hne)
               (f_equal Some Hs)).
    cbv zeta.
    destruct (stream chatModel (transcript E now_user (request_body ui) t))
      as [|chunks [|]].
    + intros _ _. reflexivity.
    + intros H500 _. exfalso. revert H500.
      apply ChatExtras.never_in. ChatExtras.each_event.
    + cbn [snd]. unfold sse_headers, error_reply.
      rewrite !writes_app, writes_relay_events. simpl.
      rewrite app_nil_r. intros _ Hw.
      apply map_eq_nil in Hw. subst chunks. reflexivity.
  - now rewrite (handle_closed_store E _ _ _ _ (request_is_valid B ui Hne)).
Qed.

(** X23, witness: the store is closed. *)
Lemma failed_streamed_exchange_shows_empty_witness :
  let ui := mkUiState [] "hi" false "s1" ["s1"] true in
  exists o,
    replies (snd (handle (E := stable_engine) scripted_model
                         "2024-01-01 12:00:01" "2024-01-01 12:00:02"
                         (request_body (B := ascii_browser) ui) None)) = [o]
    /\ handleSubmit (B := ascii_browser) (StreamedBody (Some [stringify o]))
                    BufferedRejects ui
       = mkSubmitted
           (mkUiState
              ([] ++ [Some (mkUi None user (Some (JString "hi")));
                      Some (mkUi None assistant (Some (JString "")))])
              "" false "s1" ["s1"] true)
           false.
Proof.
  apply (failed_streamed_exchange_shows_empty stable_engine ascii_browser
           scripted_model "2024-01-01 12:00:01" "2024-01-01 12:00:02"
           (mkUiState [] "hi" false "s1" ["s1"] true) None BufferedRejects);
    [discriminate | reflexivity | reflexivity
    | simpl; right; left; reflexivity | reflexivity].
Defined.

(** *** What the page sends *)

(** X24: the page's requests pass the handler's check.  When the text of
    the page is not blank, the request [handleSubmit] sends is never
    answered with status 400, whatever the store, the model and the
    mode. *)
Theorem sent_message_is_never_refused (E : SqlEngine) (B : Browser) :
  forall chatModel now_user now_reply ui store,
    trim (input ui) <> "" ->
    ~ In (ResStatus 400)
         (snd (handle chatModel now_user now_reply (request_body ui) store)).
Proof.
  intros chatModel now_user now_reply ui store Hne.
  pose proof (request_is_valid B ui Hne) as Hf.
  destruct store as [t|].
  2:{ rewrite (handle_closed_store E) by exact Hf.
      apply ChatExtras.never_in. ChatExtras.each_event. }
  destruct (streamingEnabled ui) eqn:Hs.
  - rewrite (handle_streaming E _ _ _ _ _ Hf (f_equal Some Hs)). cbv zeta.
    destruct (stream chatModel (transcript E now_user (request_body ui) t))
      as [|chunks [|]]; cbn [snd];
      apply ChatExtras.never_in; ChatExtras.each_event.
  - assert (Hmode : body_streaming (request_body ui) <> Some true).
    { simpl. rewrite Hs. discriminate. }
    rewrite (handle_buffered E _ _ _ _ _ Hf Hmode). cbv zeta.
    destruct (invoke chatModel (transcript E now_user (request_body ui) t));
      cbn [snd]; apply ChatExtras.never_in; ChatExtras.each_event.
Qed.

(** X24, witness: "hi" sent to the scripted model. *)
Lemma sent_message_is_never_refused_witness :
  ~ In (ResStatus 400)
       (snd (handle (E := stable_engine) scripted_model
                    "2024-01-01 12:00:01" "2024-01-01 12:00:02"
                    (request_body (B := ascii_browser)
                       (mkUiState [] "hi" false "s1" ["s1"] true))
                    (Some tied_table))).
Proof.
  apply (sent_message_is_never_refused stable_engine ascii_browser
           scripted_model "2024-01-01 12:00:01" "2024-01-01 12:00:02"
           (mkUiState [] "hi" false "s1" ["s1"] true) (Some tied_table)).
  discriminate.
Defined.

(** X25: on an empty store the first message goes to the session with the
    empty id.  When the table has no row, [fetchSessions] on the reply of
    GET /api/sessions clears the current session id, whatever it was; the
    request [handleSubmit] then sends carries the empty id, the handler
    does not replace it by "default", and every row of the store after the
    request, the user turn among them, has the empty session id. *)
Theorem first_message_on_empty_store (E : SqlEngine) (B : Browser) :
  forall chatModel now_user now_reply ui t,
    rows t = [] ->
    trim (input ui) <> "" ->
    let ui' := fetchSessions (Some (fst (get_sessions (Some t)))) ui in
    currentSessionId ui' = ""
    /\ exists t',
         fst (handle chatModel now_user now_reply (request_body ui') (Some t))
         = Some t'
         /\ In (mkRow (next_rowid t) "" user (trim (input ui)) now_user)
               (rows t')
         /\ forall r, In r (rows t') -> row_session_id r = "".
Proof.
  intros chatModel now_user now_reply ui t Hrows Hne ui'.
  assert (Hcur : currentSessionId ui' = "").
  { subst ui'. unfold get_sessions, fetchSessions. cbn.
    unfold select_sessions. rewrite Hrows. reflexivity. }
  split; [exact Hcur|].
  assert (Hin : input ui' = input ui) by reflexivity.
  assert (Hne' : trim (input ui') <> "") by now rewrite Hin.
  assert (Hbody : request_body ui'
                  = mkChatBody (Some (trim (input ui))) (Some "")
                               (Some (streamingEnabled ui'))).
  { unfold request_body. now rewrite Hcur, Hin. }
  destruct (handled_store E chatModel now_user now_reply (request_body ui') t
              (request_is_valid B ui' Hne')) as [Hrun | [answer Hrun]];
    rewrite Hrun, Hbody; eexists; (split; [reflexivity|]);
    simpl; rewrite Hrows; simpl.
  - split; [now left|]. intros r [<- | []]. reflexivity.
  - split; [now left|]. intros r [<- | [<- | []]]; reflexivity.
Qed.

(** X25, witness: the page as it starts, with "hi" typed, on a new
    database. *)
Lemma first_message_on_empty_store_witness :
  let ui' :=
    fetchSessions
      (Some (fst (get_sessions (Some (mkTable [] 0)))))
      (mkUiState [] "hi" false "default" [] true) in
  currentSessionId ui' = ""
  /\ exists t',
       fst (handle (E := stable_engine) scripted_model
                   "2024-01-01 12:00:01" "2024-01-01 12:00:02"
                   (request_body (B := ascii_browser) ui')
                   (Some (mkTable [] 0)))
       = Some t'
       /\ In (mkRow (next_rowid (mkTable [] 0)) "" user "hi"
                    "2024-01-01 12:00:01")
             (rows t')
       /\ forall r, In r (rows t') -> row_session_id r = "".
Proof.
  apply (first_message_on_empty_store stable_engine ascii_browser
           scripted_model "2024-01-01 12:00:01" "2024-01-01 12:00:02"
           (mkUiState [] "hi" false "default" [] true) (mkTable [] 0));
    [reflexivity | discriminate].
Defined.

(** *** Sessions in the sidebar *)

(** X26: a new chat is listed and shows no message.  [createNewSession]
    selects the id "session-" followed by the clock reading and lists it.
    When the rows the store already holds under that id, if any, have an
    empty content, then after POST /api/sessions with that id the route
    answers success, GET /api/sessions lists the id, GET /api/history
    returns a history that is not empty (the placeholder is in it), and
    [loadHistory] on that reply shows no message. *)
Theorem new_chat_is_listed_and_blank (E : SqlEngine) :
  forall now stamp ui t,
    (forall r, In r (rows t) ->
               row_session_id r = ("session-" ++ stamp)%string ->
               row_content r = "") ->
    let newSessionId := ("session-" ++ stamp)%string in
    let store' := snd (post_sessions now (Some newSessionId) (Some t)) in
    let ui' := createNewSession stamp true ui in
    fst (post_sessions now (Some newSessionId) (Some t)) = ok SuccessPayload
    /\ currentSessionId ui' = newSessionId
    /\ In newSessionId (sessions ui')
    /\ In newSessionId (sessions_field (reply_body (fst (get_sessions store'))))
    /\ history_field (reply_body (fst (get_history newSessionId store')))
       <> []
    /\ messages (loadHistory (Some (fst (get_history newSessionId store')))
                             ui') = [].
Proof.
  intros now stamp ui t Hold newSessionId store' ui'.
  set (t' := snd (insert_row now newSessionId assistant "" t)).
  assert (Hstore : store' = Some t') by reflexivity.
  assert (Hnew : In (mkRow (next_rowid t) newSessionId assistant "" now)
                    (filter (in_session newSessionId) (rows t'))).
  { apply filter_In. split.
    - subst t'. simpl. apply in_or_app. right. now left.
    - apply DatabaseFacts.in_session_refl. }
  split; [reflexivity|]. split; [reflexivity|].
  split; [now left|].
  rewrite Hstore. cbn [get_sessions getAllSessions get_history
                       getConversationHistory fst reply_body ok
                       sessions_field history_field].
  split.
  { apply DatabaseFacts.select_sessions_In.
    exists (mkRow (next_rowid t) newSessionId assistant "" now).
    split; [|reflexivity].
    subst t'. simpl. apply in_or_app. right. now left. }
  split.
  { intros Hnil. apply map_eq_nil in Hnil.
    apply (Permutation_in _
             (Permutation_sym
                (DatabaseFacts.select_history_perm E newSessionId t')))
      in Hnew.
    rewrite Hnil in Hnew. exact Hnew. }
  unfold loadHistory.
  cbn [reply_body ok history_field messages].
  rewrite (filter_all_out _ (map message_of_row
                               (select_history newSessionId t'))).
  { reflexivity. }
  apply Forall_forall. intros m Hm. apply in_map_iff in Hm.
  destruct Hm as (r & <- & Hr).
  apply (Permutation_in _ (DatabaseFacts.select_history_perm E _ _)) in Hr.
  apply filter_In in Hr. destruct Hr as [Hr Hs].
  apply DatabaseFacts.in_session_iff in Hs.
  subst t'. simpl in Hr. apply in_app_or in Hr.
  destruct Hr as [Hr | [<- | []]]; simpl.
  - now rewrite (Hold r Hr Hs).
  - reflexivity.
Qed.

(** X26, witness: a new chat at clock reading 1700000000000. *)
Lemma new_chat_is_listed_and_blank_witness :
  let newSessionId := ("session-" ++ "1700000000000")%string in
  let store' :=
    snd (post_sessions "2024-01-01 12:00:09" (Some newSessionId)
                       (Some tied_table)) in
  In newSessionId (sessions_field (reply_body (fst (get_sessions store'))))
  /\ messages
       (loadHistory
          (Some (fst (get_history (E := reversing_engine) newSessionId
                                  store')))
          (createNewSession "1700000000000" true initial)) = [].
Proof.
  destruct (new_chat_is_listed_and_blank reversing_engine
              "2024-01-01 12:00:09" "1700000000000" initial tied_table)
    as (_ & _ & _ & Hlisted & _ & Hblank).
  - intros r [<- | [<- | []]]; discriminate.
  - split; [exact Hlisted | exact Hblank].
Defined.

(** X27: after [fetchSessions] the selection is in order.  Whatever the
    page held and whatever the reply of GET /api/sessions, after
    [fetchSessions] the list is the fetched one and either it is empty and
    no session is selected, or the selected session is its first element
    or a listed session with a non-empty id; running [fetchSessions] again
    on the same reply changes nothing. *)
Theorem fetched_selection_is_settled : forall reply ui,
  sessions (fetchSessions (Some reply) ui)
  = sessions_field (reply_body reply)
  /\ settled (fetchSessions (Some reply) ui)
  /\ fetchSessions (Some reply) (fetchSessions (Some reply) ui)
     = fetchSessions (Some reply) ui.
Proof.
  intros reply ui. unfold fetchSessions, settled. cbn.
  destruct (sessions_field (reply_body reply)) as [|first rest] eqn:Hl.
  { repeat split. }
  split; [reflexivity|].
  destruct (String.eqb_spec (currentSessionId ui) "") as [Hc | Hc].
  { cbn [orb]. split; [now left|].
    destruct (String.eqb_spec first "") as [_ | Hf]; cbn [orb];
      [reflexivity|].
    replace (includes (first :: rest) first) with true; [reflexivity|].
    symmetry. apply includes_In. now left. }
  cbn [orb].
  destruct (includes (first :: rest) (currentSessionId ui)) eqn:Hi;
    cbn [negb].
  - split.
    + right. split; [exact Hc | now apply includes_In].
    + destruct (String.eqb_spec (currentSessionId ui) "") as [|_];
        [contradiction|].
      cbn [orb]. rewrite Hi. reflexivity.
  - split; [now left|].
    destruct (String.eqb_spec first "") as [_ | Hf]; cbn [orb];
      [reflexivity|].
    replace (includes (first :: rest) first) with true; [reflexivity|].
    symmetry. apply includes_In. now left.
Qed.



(** *** The page and the store *)



End ClientExtras.
